(** * The GroupSync reconciler (controllers/groupsync_controller.go)

    A shallow embedding of [Reconcile], [manageSuccess], [manageError] and
    [ISO8601], with the API server, the provider syncers, the cron parser
    and the clock as explicit collaborators. *)

From Stdlib Require Import ZArith String Ascii List DecimalString.
From Stdlib Require Import Decimal DecimalFacts DecimalPos.
From stdpp Require Import base option gmap strings list fin_maps.
Import ListNotations.

Local Open Scope Z_scope.
Local Open Scope string_scope.

(** ** Formatting integers the way [fmt.Sprintf] does *)

Module Fmt.

(** The decimal digits of a non-negative integer, no sign, no padding. *)
Definition digits (n : Z) : string :=
  NilZero.string_of_uint (N.to_uint (Z.to_N n)).

(** [padLeft0 w s] puts zeros in front of [s] until it is [w] wide. *)
Fixpoint zeros (k : nat) : string :=
  match k with
  | O => EmptyString
  | S k' => String "0" (zeros k')
  end.

Definition padLeft0 (w : nat) (s : string) : string :=
  zeros (w - String.length s) ++ s.

(** The verb [%0<w>d] on an int.  With the zero flag the width becomes the
    precision of the digits, one less when a sign is printed, and the sign
    goes in front of the padded digits: [%03d] gives "005" for 5 and "-05"
    for -5. *)
Definition d0 (w : nat) (n : Z) : string :=
  if (n <? 0)%Z then String "-" (padLeft0 (w - 1) (digits (- n)))
  else padLeft0 w (digits n).

End Fmt.

(** ** time.Time, as far as its accessors are used *)

(** What [t.Year()], [t.Month()], [t.Day()], [t.Hour()], [t.Minute()],
    [t.Second()] and [t.Zone()] return for a time [t], and the instant as
    nanoseconds since the epoch for [t.Sub]. *)
Record Time := mkTime {
  Year : Z;
  Month : Z;
  Day : Z;
  Hour : Z;
  Minute : Z;
  Second : Z;
  ZoneName : string;
  ZoneOffset : Z;
  UnixNano : Z
}.

(** The first six verbs of the layout of [ISO8601]:
    [%04d-%02d-%02dT%02d:%02d:%02d]. *)
Definition civil (t : Time) : string :=
  Fmt.d0 4 (Year t) ++ "-" ++ Fmt.d0 2 (Month t) ++ "-" ++ Fmt.d0 2 (Day t)
  ++ "T" ++ Fmt.d0 2 (Hour t) ++ ":" ++ Fmt.d0 2 (Minute t) ++ ":"
  ++ Fmt.d0 2 (Second t).

(** Go's [/] on ints truncates towards zero: [Z.quot]. *)
Definition tzSuffix (zone : string) (offset : Z) : string :=
  if String.eqb zone "UTC" then "Z"
  else Fmt.d0 3 (Z.quot offset 3600) ++ "00".

Definition ISO8601 (t : Time) : string :=
  let tz := tzSuffix (ZoneName t) (ZoneOffset t) in
  civil t ++ tz.

(** [t.Sub(u)] for two wall-clock readings: the difference of the instants,
    saturated to the range of [time.Duration] (an int64 of nanoseconds). *)
Definition maxDuration : Z := 2 ^ 63 - 1.
Definition minDuration : Z := - 2 ^ 63.

Definition Sub (t u : Time) : Z :=
  Z.max minDuration (Z.min maxDuration (UnixNano t - UnixNano u)).

(** ** Errors *)

(** A non-nil Go [error]: its text, [err.Error()], and whether
    [apierrors.IsNotFound(err)] holds of it. *)
Record error := mkError {
  IsNotFound : bool;
  Error : string
}.

(** ** API objects *)

Module userv1.

(** [userv1.Group]: the name, the labels and annotations of its metadata
    (a nil map is [None]) and the users. *)
Record Group := mkGroup {
  Name : string;
  Labels : option (gmap string string);
  Annotations : option (gmap string string);
  Users : list string
}.

Definition SetLabels (g : Group) (l : gmap string string) : Group :=
  mkGroup (Name g) (Some l) (Annotations g) (Users g).

Definition SetAnnotations (g : Group) (a : gmap string string) : Group :=
  mkGroup (Name g) (Labels g) (Some a) (Users g).

Definition SetUsers (g : Group) (u : list string) : Group :=
  mkGroup (Name g) (Labels g) (Annotations g) u.

(** [m[k]] on a map that may be nil: reading a nil map finds nothing. *)
Definition index (m : option (gmap string string)) (k : string) : option string :=
  match m with
  | Some m' => m' !! k
  | None => None
  end.

(** [m[k] = v] on the map of an object whose map was just set. *)
Definition assign (m : option (gmap string string)) (k v : string)
  : option (gmap string string) :=
  Some (<[k := v]> (default ∅ m)).

End userv1.

Module status.

Inductive ConditionStatus := ConditionTrue | ConditionFalse | ConditionUnknown.

(** [status.Condition] of operator-lib, without its transition time. *)
Record Condition := mkCondition {
  Type_ : string;
  Status : ConditionStatus;
  Reason : string;
  Message : string
}.

(** [Conditions.SetCondition]: the condition of the same type is replaced
    where it stands, a condition of a new type is appended. *)
Fixpoint SetCondition (conditions : list Condition) (newCond : Condition)
  : list Condition :=
  match conditions with
  | [] => [newCond]
  | c :: rest =>
      if String.eqb (Type_ c) (Type_ newCond) then newCond :: rest
      else c :: SetCondition rest newCond
  end.

(** [Conditions.GetCondition]: the first condition of the type. *)
Fixpoint GetCondition (conditions : list Condition) (t : string)
  : option Condition :=
  match conditions with
  | [] => None
  | c :: rest =>
      if String.eqb (Type_ c) t then Some c else GetCondition rest t
  end.

End status.

Module v1alpha1.

(** Modelled from the spec: api/v1alpha1 is not at hand.  A provider
    configuration is opaque to the reconciler beyond its name. *)
Record Provider := mkProvider {
  ProviderName : string;
  ProviderConfig : string
}.

Record GroupSyncSpec := mkSpec {
  Providers : list Provider;
  Schedule : string
}.

Record GroupSyncStatus := mkStatus {
  Conditions : list status.Condition;
  LastSyncSuccessTime : option Time
}.

Record GroupSync := mkGroupSync {
  Name : string;
  Spec : GroupSyncSpec;
  Status : GroupSyncStatus
}.

Definition withConditions (i : GroupSync) (c : list status.Condition) : GroupSync :=
  mkGroupSync (Name i) (Spec i) (mkStatus c (LastSyncSuccessTime (Status i))).

Definition withLastSyncSuccessTime (i : GroupSync) (t : Time) : GroupSync :=
  mkGroupSync (Name i) (Spec i) (mkStatus (Conditions (Status i)) (Some t)).

End v1alpha1.

(** [ctrl.Result]; the delay is a [time.Duration] in nanoseconds. *)
Record Result := mkResult {
  Requeue : bool;
  RequeueAfter : Z
}.

Definition emptyResult : Result := mkResult false 0.

(** ** The collaborators *)

(** [cron.Schedule]. *)
Record Schedule := mkSchedule {
  Next : Time -> Time
}.

(** A provider syncer of pkg/syncer, by what its calls answer in this pass. *)
Record GroupSyncer := mkGroupSyncer {
  GetProviderName : string;
  Bind : option error;
  Sync : error + list userv1.Group
}.

(** The manager that [syncer.GetGroupSyncMgr] builds.  [SetDefaults] gives
    the instance after defaulting and whether anything changed. *)
Record GroupSyncMgr := mkGroupSyncMgr {
  SetDefaults : v1alpha1.GroupSync -> v1alpha1.GroupSync * bool;
  Validate : option error;
  GroupSyncers : list GroupSyncer
}.

(** Everything outside the reconciler.  The Group objects of the API server
    are state (see [World]); the calls on them fail when the fault functions
    say so.  A status update that succeeds answers with the object the
    server stored, which the client decodes into the instance.
    [ParseStandard] answers [(nil, err)] as [inl err]: the parser of
    robfig/cron gives no Schedule with an error. *)
Record Env := mkEnv {
  Get : string -> error + v1alpha1.GroupSync;
  Update : v1alpha1.GroupSync -> option error;
  StatusUpdate : v1alpha1.GroupSync -> error + v1alpha1.GroupSync;
  GetGroupFault : gmap string userv1.Group -> string -> option error;
  CreateOrUpdateFault : gmap string userv1.Group -> userv1.Group -> option error;
  GetGroupSyncMgr : v1alpha1.GroupSync -> error + GroupSyncMgr;
  ParseStandard : string -> error + Schedule;
  timeNow : nat -> Time;
  clockNow : nat -> Time
}.

(** What the reconciler asks of the outside, in order. *)
Inductive Call :=
| CallGet (req : string)
| CallGetGroupSyncMgr
| CallSetDefaults
| CallUpdate (instance : v1alpha1.GroupSync)
| CallValidate
| CallBind (provider : string)
| CallSync (provider : string)
| CallGetGroup (name : string)
| CallCreateOrUpdateResource (obj : userv1.Group)
| CallStatusUpdate (instance : v1alpha1.GroupSync)
| CallEvent (object eventtype reason message : string)
| CallParseStandard (spec : string)
| CallLog (msg : string).

(** The Group objects of the API server by name, the number of clock
    readings so far and the calls made so far, oldest first. *)
Record World := mkWorld {
  groups : gmap string userv1.Group;
  ticks : nat;
  trace : list Call
}.

(** How a run of [Reconcile] ends. *)
Inductive Outcome :=
| Returned (res : Result) (err : option error)
| Panicked.

(** ** Procedures: state passing with early return *)

(** A step of a function that returns an [R]: it has either returned
    ([inl]) or goes on with a value ([inr]). *)
Definition Proc (R A : Type) : Type := World -> (R + A) * World.

Definition ret {R A} (a : A) : Proc R A := fun w => (inr a, w).

Definition bind {R A B} (m : Proc R A) (f : A -> Proc R B) : Proc R B :=
  fun w =>
    match m w with
    | (inl r, w') => (inl r, w')
    | (inr a, w') => f a w'
    end.

(** Go's [return r]. *)
Definition return_ {R A} (r : R) : Proc R A := fun w => (inl r, w).

(** A whole function body: its last step is a [return]. *)
Definition run {R} (body : Proc R R) (w : World) : R * World :=
  match body w with
  | (inl r, w') => (r, w')
  | (inr r, w') => (r, w')
  end.

(** Calling a function from a step of another. *)
Definition call {R A} (f : World -> A * World) : Proc R A :=
  fun w => let '(a, w') := f w in (inr a, w').

Declare Scope proc_scope.
Delimit Scope proc_scope with proc.
Notation "x <- m ;; k" := (bind m (fun x => k))
  (at level 100, m at next level, right associativity) : proc_scope.
Notation "m ;; k" := (bind m (fun _ => k))
  (at level 100, right associativity) : proc_scope.

(** [for _, x := range l { body }], with a value threaded through. *)
Fixpoint forEach {R A S} (l : list A) (body : A -> S -> Proc R S) (s : S)
  : Proc R S :=
  match l with
  | [] => ret s
  | x :: rest => bind (body x s) (forEach rest body)
  end.

Definition record {R} (c : Call) : Proc R unit :=
  fun w => (inr tt, mkWorld (groups w) (ticks w) (trace w ++ [c])).

Definition tick {R} (clk : nat -> Time) : Proc R Time :=
  fun w => (inr (clk (ticks w)), mkWorld (groups w) (S (ticks w)) (trace w)).

(** ** The reconciler *)

Section Reconciler.

(** The label and annotation keys of pkg/constants. *)
Variables SyncProvider SyncTimestamp : string.

Variable env : Env.

Local Open Scope proc_scope.

(** *** The calls, as steps *)

Definition log {R} (msg : string) : Proc R unit := record (CallLog msg).

Definition clientGet {R} (req : string) : Proc R (error + v1alpha1.GroupSync) :=
  record (CallGet req) ;; ret (Get env req).

Definition clientUpdate {R} (instance : v1alpha1.GroupSync) : Proc R (option error) :=
  record (CallUpdate instance) ;; ret (Update env instance).

Definition clientStatusUpdate {R} (instance : v1alpha1.GroupSync)
  : Proc R (error + v1alpha1.GroupSync) :=
  record (CallStatusUpdate instance) ;; ret (StatusUpdate env instance).

(** [r.GetClient().Get] of a Group: the fault if one is injected, else the
    stored object, else a not-found error. *)
Definition notFound (name : string) : error :=
  mkError true ("groups.user.openshift.io " ++ name ++ " not found").

Definition lookupGroup (w : World) (name : string) : error + userv1.Group :=
  match GetGroupFault env (groups w) name with
  | Some err => inl err
  | None =>
      match groups w !! name with
      | Some g => inr g
      | None => inl (notFound name)
      end
  end.

Definition clientGetGroup {R} (name : string) : Proc R (error + userv1.Group) :=
  record (CallGetGroup name) ;; fun w => (inr (lookupGroup w name), w).

(** [r.CreateOrUpdateResource(instance, "", obj)]: unless it fails, the
    object is stored under its name. *)
Definition CreateOrUpdateResource {R} (obj : userv1.Group) : Proc R (option error) :=
  record (CallCreateOrUpdateResource obj) ;;
  fun w =>
    match CreateOrUpdateFault env (groups w) obj with
    | Some err => (inr (Some err), w)
    | None =>
        (inr None,
         mkWorld (<[userv1.Name obj := obj]> (groups w)) (ticks w) (trace w))
    end.

(** [r.GetRecorder().Event(object, eventtype, reason, message)]; the object
    is recorded by its name. *)
Definition Event {R} (object : v1alpha1.GroupSync) (eventtype reason message : string)
  : Proc R unit :=
  record (CallEvent (v1alpha1.Name object) eventtype reason message).

(** *** manageSuccess and manageError *)

Definition groupsync : string := "groupsync".

(** [instance.Status.Conditions.SetCondition(condition)]. *)
Definition setCondition (instance : v1alpha1.GroupSync) (condition : status.Condition)
  : v1alpha1.GroupSync :=
  v1alpha1.withConditions instance
    (status.SetCondition (v1alpha1.Conditions (v1alpha1.Status instance)) condition).

Definition successCondition : status.Condition :=
  status.mkCondition groupsync status.ConditionTrue
    "synchronization succeeded" "group synchronization has succeeded".

Definition errorCondition (err : error) : status.Condition :=
  status.mkCondition groupsync status.ConditionTrue
    "synchronization error" (Error err).

Definition manageSuccess (instance : v1alpha1.GroupSync)
  : World -> (v1alpha1.GroupSync * Result * option error) * World :=
  run (
    let condition := successCondition in
    let instance := setCondition instance condition in
    r <- clientStatusUpdate instance ;;
    match r with
    | inl err =>
        log "unable to update status" ;;
        return_ (instance, emptyResult, Some err)
    | inr instance => return_ (instance, emptyResult, None)
    end).

(** [err] is not nil at any call, so the test [err != nil] after the
    status update holds and the first [return] is the one taken, whatever
    the update answered. *)
Definition manageError (instance : v1alpha1.GroupSync) (err : error)
  : World -> (Result * option error) * World :=
  run (
    Event instance "Warning" "GroupSyncError" (Error err) ;;
    let condition := errorCondition err in
    let instance := setCondition instance condition in
    updateErr <- clientStatusUpdate instance ;;
    log "unable to update status" ;;
    return_ (emptyResult, Some err)).

(** [return r.manageError(instance, err, logger)] inside [Reconcile]. *)
Definition fail {A} (instance : v1alpha1.GroupSync) (err : error) : Proc Outcome A :=
  r <- call (manageError instance err) ;;
  return_ (Returned (fst r) (snd r)).

(** *** The body of the loop over the groups of a provider *)

(** Lines 121 to 137: the object to write for [group], or [None] at
    [continue]. *)
Definition target (instance : v1alpha1.GroupSync) (providerLabel : string)
    (group : userv1.Group) : Proc Outcome (option userv1.Group) :=
  r <- clientGetGroup (userv1.Name group) ;;
  match r with
  | inl err =>
      if IsNotFound err then
        ret (Some (userv1.mkGroup (userv1.Name group) None None []))
      else fail instance err
  | inr ocpGroup =>
      match userv1.index (userv1.Labels ocpGroup) SyncProvider with
      | Some groupProviderLabel =>
          if String.eqb groupProviderLabel providerLabel then ret (Some ocpGroup)
          else
            log "Group Provider Label Did Not Match Expected Provider Label" ;;
            ret None
      | None =>
          log "Group Provider Label Did Not Match Expected Provider Label" ;;
          ret None
      end
  end.

(** Lines 119 to 170, with the count of updated groups threaded through.
    When the provider gave labels or annotations, the maps set on
    [ocpGroup] are the provider's own maps, so the two assignments also
    write into [group]; [group] is not read afterwards and the written
    values do not depend on what the map held under these keys. *)
Definition upsert (instance : v1alpha1.GroupSync) (providerLabel : string)
    (group : userv1.Group) (updatedGroups : nat) : Proc Outcome nat :=
  t <- target instance providerLabel group ;;
  match t with
  | None => ret updatedGroups
  | Some ocpGroup =>
      let ocpGroupLabels := default ∅ (userv1.Labels group) in
      let ocpGroupAnnotations := default ∅ (userv1.Annotations group) in
      let ocpGroup := userv1.SetLabels ocpGroup ocpGroupLabels in
      let ocpGroup := userv1.SetAnnotations ocpGroup ocpGroupAnnotations in
      let ocpGroup :=
        userv1.mkGroup (userv1.Name ocpGroup)
          (userv1.assign (userv1.Labels ocpGroup) SyncProvider providerLabel)
          (userv1.Annotations ocpGroup) (userv1.Users ocpGroup) in
      now <- tick (timeNow env) ;;
      let ocpGroup :=
        userv1.mkGroup (userv1.Name ocpGroup) (userv1.Labels ocpGroup)
          (userv1.assign (userv1.Annotations ocpGroup) SyncTimestamp (ISO8601 now))
          (userv1.Users ocpGroup) in
      let ocpGroup := userv1.SetUsers ocpGroup (userv1.Users group) in
      e <- CreateOrUpdateResource ocpGroup ;;
      match e with
      | Some err =>
          log "Failed to Create or Update OpenShift Group" ;;
          fail instance err
      | None => ret (S updatedGroups)
      end
  end.

(** *** The body of the loop over the providers *)

(** [fmt.Sprintf("%s_%s", instance.Name, groupSyncer.GetProviderName())]. *)
Definition providerLabelOf (instance : v1alpha1.GroupSync) (groupSyncer : GroupSyncer)
  : string :=
  v1alpha1.Name instance ++ "_" ++ GetProviderName groupSyncer.

(** Lines 97 to 174. *)
Definition syncProvider (instance : v1alpha1.GroupSync) (groupSyncer : GroupSyncer)
    (_ : unit) : Proc Outcome unit :=
  log "Beginning Sync" ;;
  let providerLabel := providerLabelOf instance groupSyncer in
  record (CallBind (GetProviderName groupSyncer)) ;;
  match Bind groupSyncer with
  | Some err => fail instance err
  | None =>
      record (CallSync (GetProviderName groupSyncer)) ;;
      match Sync groupSyncer with
      | inl err =>
          log "Failed to Complete Sync" ;;
          fail instance err
      | inr groups =>
          updatedGroups <- forEach groups (upsert instance providerLabel) 0%nat ;;
          log "Sync Completed Successfully"
      end
  end.

(** *** Reconcile *)

(** Lines 176 to 188: the success path after the loop.  The error of
    [cron.ParseStandard] is dropped, and [sched.Next] on the nil Schedule of
    a failed parse is a nil dereference. *)
Definition finish (instance : v1alpha1.GroupSync) : Proc Outcome Outcome :=
  now <- tick (clockNow env) ;;
  let instance := v1alpha1.withLastSyncSuccessTime instance now in
  r <- call (manageSuccess instance) ;;
  let '(instance, successResult, err) := r in
  match err with
  | None =>
      if String.eqb (v1alpha1.Schedule (v1alpha1.Spec instance)) "" then
        return_ (Returned successResult err)
      else
        record (CallParseStandard (v1alpha1.Schedule (v1alpha1.Spec instance))) ;;
        let sched := ParseStandard env (v1alpha1.Schedule (v1alpha1.Spec instance)) in
        currentTime <- tick (timeNow env) ;;
        match sched with
        | inl _ => return_ Panicked
        | inr sched =>
            let nextScheduledTime := Next sched currentTime in
            return_ (Returned
                       (mkResult (Requeue successResult)
                          (Sub nextScheduledTime currentTime))
                       err)
        end
  | Some _ => return_ (Returned successResult err)
  end.

Definition Reconcile (req : string) : World -> Outcome * World :=
  run (
    r <- clientGet req ;;
    match r with
    | inl err =>
        if IsNotFound err then return_ (Returned emptyResult None)
        else return_ (Returned emptyResult (Some err))
    | inr instance =>
        record CallGetGroupSyncMgr ;;
        match GetGroupSyncMgr env instance with
        | inl err => fail instance err
        | inr groupSyncMgr =>
            record CallSetDefaults ;;
            let '(instance, changed) := SetDefaults groupSyncMgr instance in
            if changed then
              e <- clientUpdate instance ;;
              match e with
              | Some err =>
                  log "unable to update instance" ;;
                  fail instance err
              | None => return_ (Returned emptyResult None)
              end
            else
              record CallValidate ;;
              match Validate groupSyncMgr with
              | Some err => fail instance err
              | None =>
                  forEach (GroupSyncers groupSyncMgr) (syncProvider instance) tt ;;
                  finish instance
              end
        end
    end).

End Reconciler.

Arguments Reconcile SyncProvider SyncTimestamp env req w : simpl never.

(** ** Vocabulary of the statements *)

Section Vocabulary.

Variables SyncProvider SyncTimestamp : string.

(** The world after more calls. *)
Definition after (w : World) (calls : list Call) : World :=
  mkWorld (groups w) (ticks w) (trace w ++ calls).

(** What [manageError] asks of the outside. *)
Definition errorCalls (instance : v1alpha1.GroupSync) (err : error) : list Call :=
  [CallEvent (v1alpha1.Name instance) "Warning" "GroupSyncError" (Error err);
   CallStatusUpdate (setCondition instance (errorCondition err));
   CallLog "unable to update status"].

(** The calls up to the loop over the providers. *)
Definition prelude (req : string) : list Call :=
  [CallGet req; CallGetGroupSyncMgr; CallSetDefaults; CallValidate].

(** The calls of a merge step that skips its group. *)
Definition skipCalls (group : userv1.Group) : list Call :=
  [CallGetGroup (userv1.Name group);
   CallLog "Group Provider Label Did Not Match Expected Provider Label"].

(** What a provider that fails at Bind or at Sync is asked. *)
Definition failedCalls (groupSyncer : GroupSyncer) : list Call :=
  CallLog "Beginning Sync" :: CallBind (GetProviderName groupSyncer) ::
  match Bind groupSyncer with
  | Some _ => []
  | None =>
      [CallSync (GetProviderName groupSyncer); CallLog "Failed to Complete Sync"]
  end.

(** What a provider is asked before its groups are merged. *)
Definition syncCalls (groupSyncer : GroupSyncer) : list Call :=
  [CallLog "Beginning Sync"; CallBind (GetProviderName groupSyncer);
   CallSync (GetProviderName groupSyncer)].

(** The conditions of a type. *)
Definition ofType (t : string) (conditions : list status.Condition)
  : list status.Condition :=
  List.filter (fun c => String.eqb (status.Type_ c) t) conditions.

(** The Group the spec asks for, in its words: the provider's labels with the ownership
    label on top, the provider's annotations with the timestamp on top,
    and the provider's members. *)
Definition mirrored (providerLabel : string) (now : Time) (group : userv1.Group)
  : userv1.Group :=
  userv1.mkGroup (userv1.Name group)
    (Some (<[SyncProvider := providerLabel]> (default ∅ (userv1.Labels group))))
    (Some (<[SyncTimestamp := ISO8601 now]> (default ∅ (userv1.Annotations group))))
    (userv1.Users group).

(** The same time in a zone of the same name at another offset. *)
Definition withOffset (t : Time) (offset : Z) : Time :=
  mkTime (Year t) (Month t) (Day t) (Hour t) (Minute t) (Second t)
         (ZoneName t) offset (UnixNano t).


(** *** Vocabulary for the Group store *)

Variable env : Env.

(** The object of lines 126 and 127: new, with the name of the group. *)
Definition fresh (group : userv1.Group) : userv1.Group :=
  userv1.mkGroup (userv1.Name group) None None [].

(** What lines 139 to 159 make of [ocpGroup]: its name is kept, the rest
    comes from the provider's group. *)
Definition written (ocpGroup : userv1.Group) (providerLabel : string) (now : Time)
    (group : userv1.Group) : userv1.Group :=
  userv1.mkGroup (userv1.Name ocpGroup)
    (Some (<[SyncProvider := providerLabel]> (default ∅ (userv1.Labels group))))
    (Some (<[SyncTimestamp := ISO8601 now]> (default ∅ (userv1.Annotations group))))
    (userv1.Users group).

(** The lookup of lines 121 to 137 lets the step write [ocpGroup]: the
    lookup said not-found and [ocpGroup] is new, or it found [ocpGroup]
    with the provider's label. *)
Definition writable (st : gmap string userv1.Group) (providerLabel : string)
    (group ocpGroup : userv1.Group) : Prop :=
  match lookupGroup env (mkWorld st 0 []) (userv1.Name group) with
  | inl err => IsNotFound err = true /\ ocpGroup = fresh group
  | inr o =>
      userv1.index (userv1.Labels o) SyncProvider = Some providerLabel
      /\ ocpGroup = o
  end.

(** Every stored Group is stored under its own name. *)
Definition wellKeyed (st : gmap string userv1.Group) : Prop :=
  map_Forall (fun name o => userv1.Name o = name) st.

(** Reads of a name that holds an object never answer not-found. *)
Definition readsFound (name : string) : Prop :=
  forall st err, GetGroupFault env st name = Some err -> IsNotFound err = false.

(** The result of a [return r.manageError(...)]. *)
Definition failed (out : Outcome) : Prop :=
  exists err, out = Returned emptyResult (Some err).

(** A step keeps a property of the Group store, and returns only through
    the error path. *)
Definition keeps {A} (I : gmap string userv1.Group -> Prop) (m : Proc Outcome A)
  : Prop :=
  forall w, I (groups w) ->
    match m w with
    | (inl out, w') => failed out /\ I (groups w')
    | (inr _, w') => I (groups w')
    end.

(** The tags of the providers of a manager for an instance. *)
Definition tagsOf (instance : v1alpha1.GroupSync) (syncers : list GroupSyncer)
  : list string :=
  List.map (providerLabelOf instance) syncers.

(** The names of the groups the providers report. *)
Definition reported (syncers : list GroupSyncer) : list string :=
  List.concat
    (List.map (fun s => match Sync s with
                        | inr gs => List.map userv1.Name gs
                        | inl _ => []
                        end) syncers).

(** [check] holds of [k] decimal numbers counted up from [u], the least
    significant digit first. *)
Fixpoint countedUp (check : Decimal.uint -> bool) (k : nat) (u : Decimal.uint) : bool :=
  match k with
  | O => true
  | S k' => check u && countedUp check k' (Decimal.Little.succ u)
  end.

(** A decimal number has between one and [w] digits. *)
Definition fits (w : nat) (u : Decimal.uint) : bool :=
  Nat.leb 1 (Decimal.nb_digits u) && Nat.leb (Decimal.nb_digits u) w.

Fixpoint hasUnderscore (s : string) : bool :=
  match s with
  | EmptyString => false
  | String c rest => Ascii.eqb c "_" || hasUnderscore rest
  end.

End Vocabulary.

(** ** A concrete deployment, for running the model *)

Module Example.

Definition SyncProvider : string := "group-sync-operator.redhat-cop.io/sync-provider".
Definition SyncTimestamp : string := "group-sync-operator.redhat-cop.io/sync-timestamp".

(** 2023-01-05, 03:04:05 on the wall, in a zone. *)
Definition jan5 (zone : string) (offset : Z) : Time :=
  mkTime 2023 1 5 3 4 5 zone offset (1672887845000000000 - offset * 1000000000).

Definition utc : Time := jan5 "UTC" 0.
Definition plus5 : Time := jan5 "+05" 18000.
Definition minus5 : Time := jan5 "-05" (-18000).
Definition gmt : Time := jan5 "GMT" 0.
Definition ist : Time := jan5 "IST" 19800.

Definition succeeded : status.Condition :=
  status.mkCondition "groupsync" status.ConditionTrue
    "synchronization succeeded" "group synchronization has succeeded".

(** The resource team-sync after an earlier pass that succeeded. *)
Definition instance (schedule : string) : v1alpha1.GroupSync :=
  v1alpha1.mkGroupSync "team-sync"
    (v1alpha1.mkSpec
       [v1alpha1.mkProvider "ldap" "url"; v1alpha1.mkProvider "github" "org";
        v1alpha1.mkProvider "okta" "tenant"]
       schedule)
    (v1alpha1.mkStatus [succeeded] None).

(** What the providers report. *)
Definition devs : userv1.Group :=
  userv1.mkGroup "devs" None None ["carol"].

Definition ops : userv1.Group :=
  userv1.mkGroup "ops" (Some {["tier" := "one"]}) None ["dave"].

Definition qa : userv1.Group :=
  userv1.mkGroup "qa" None None ["frank"].

Definition ldap : GroupSyncer := mkGroupSyncer "ldap" None (inr [devs; ops]).

Definition github (bind : option error) : GroupSyncer :=
  mkGroupSyncer "github" bind (inr [devs]).

Definition okta : GroupSyncer := mkGroupSyncer "okta" None (inr [qa]).

Definition refused : error := mkError false "connection refused".
Definition conflict : error := mkError false "the object has been modified".
Definition unavailable : error := mkError false "etcdserver: request timed out".
Definition gone : error :=
  mkError true "groupsyncs.redhatcop.redhat.io team-sync not found".
Definition badSpec : error := mkError false "Expected exactly 5 fields".

Definition mgr (changed : bool) (bind : option error) : GroupSyncMgr :=
  mkGroupSyncMgr (fun i => (i, changed)) None [ldap; github bind; okta].

(** The schedule of every minute. *)
Definition everyMinute : Schedule :=
  mkSchedule (fun t =>
    mkTime (Year t) (Month t) (Day t) (Hour t) (Minute t + 1) 0
           (ZoneName t) (ZoneOffset t)
           (UnixNano t + (60 - Second t) * 1000000000)).

Definition parse (s : string) : error + Schedule :=
  if String.eqb s "* * * * *" then inr everyMinute else inl badSpec.

(** A deployment where the fetch answers [fetch], defaulting changes the
    spec when [changed], the second provider binds with [bind], reading
    the group [broken] fails, status updates fail when [down], and nothing
    else does. *)
Definition env (fetch : error + v1alpha1.GroupSync) (changed : bool)
    (bind : option error) (broken : string) (down : bool) : Env :=
  mkEnv (fun _ => fetch) (fun _ => None)
        (fun i => if down then inl unavailable else inr i)
        (fun _ name => if String.eqb name broken then Some conflict else None)
        (fun _ _ => None)
        (fun _ => inr (mgr changed bind))
        parse (fun _ => utc) (fun _ => utc).

(** The cluster before the pass: [devs] belongs to the ldap provider of
    this resource and carries a label made by hand, [ops] belongs to
    another resource. *)
Definition devsBefore : userv1.Group :=
  userv1.mkGroup "devs"
    (Some {[ SyncProvider := "team-sync_ldap"; "foo" := "bar" ]})
    None ["alice"; "bob"].

Definition opsBefore : userv1.Group :=
  userv1.mkGroup "ops" (Some {[ SyncProvider := "other_ldap" ]}) None ["erin"].

Definition cluster : gmap string userv1.Group :=
  {[ "devs" := devsBefore; "ops" := opsBefore ]}.

Definition world : World := mkWorld cluster 0 [].

(** [devs] as the ldap provider of team-sync writes it. *)
Definition devsAfter : userv1.Group :=
  userv1.mkGroup "devs"
    (Some {[ SyncProvider := "team-sync_ldap" ]})
    (Some {[ SyncTimestamp := "2023-01-05T03:04:05Z" ]})
    ["carol"].

(** The world once the ldap provider has merged [devs]. *)
Definition devsMerged : World :=
  mkWorld (<["devs" := devsAfter]> cluster) 1
    (prelude "team-sync" ++ syncCalls ldap
     ++ [CallGetGroup "devs"; CallCreateOrUpdateResource devsAfter]).

(** The world once the ldap provider is done: [ops] was skipped. *)
Definition ldapDone : World :=
  after devsMerged (skipCalls ops ++ [CallLog "Sync Completed Successfully"]).

Definition qaAfter : userv1.Group :=
  userv1.mkGroup "qa"
    (Some {[ SyncProvider := "team-sync_okta" ]})
    (Some {[ SyncTimestamp := "2023-01-05T03:04:05Z" ]})
    ["frank"].

(** The world once all three providers are done: github found [devs]
    owned by ldap and skipped it, okta created [qa]. *)
Definition allDone : World :=
  mkWorld (<["qa" := qaAfter]> (groups ldapDone)) 2
    (trace ldapDone ++ syncCalls (github None) ++ skipCalls devs
     ++ [CallLog "Sync Completed Successfully"] ++ syncCalls okta
     ++ [CallGetGroup "qa"; CallCreateOrUpdateResource qaAfter;
         CallLog "Sync Completed Successfully"]).

End Example.

(** ** The example deployment with more things going wrong *)

Module Faulty.

Definition healthy : Env :=
  Example.env (inr (Example.instance "")) false None "" false.

Definition badConfig : error := mkError false "no provider type configured".
Definition invalid : error := mkError false "ldap: url is required".

(** The manager cannot be built. *)
Definition managerDown : Env :=
  mkEnv (Get healthy) (Update healthy) (StatusUpdate healthy)
        (GetGroupFault healthy) (CreateOrUpdateFault healthy)
        (fun _ => inl badConfig)
        (ParseStandard healthy) (timeNow healthy) (clockNow healthy).

(** The manager does not validate. *)
Definition invalidMgr : GroupSyncMgr :=
  mkGroupSyncMgr (fun i => (i, false)) (Some invalid)
    [Example.ldap; Example.github None; Example.okta].

Definition invalidEnv : Env :=
  mkEnv (Get healthy) (Update healthy) (StatusUpdate healthy)
        (GetGroupFault healthy) (CreateOrUpdateFault healthy)
        (fun _ => inr invalidMgr)
        (ParseStandard healthy) (timeNow healthy) (clockNow healthy).

(** Defaulting changes the spec and the update of the resource fails. *)
Definition updateDown : Env :=
  mkEnv (Get healthy) (fun _ => Some Example.conflict) (StatusUpdate healthy)
        (GetGroupFault healthy) (CreateOrUpdateFault healthy)
        (fun _ => inr (Example.mgr true None))
        (ParseStandard healthy) (timeNow healthy) (clockNow healthy).

(** Writes of the group [ops] fail. *)
Definition writeDown : Env :=
  mkEnv (Get healthy) (Update healthy) (StatusUpdate healthy)
        (GetGroupFault healthy)
        (fun _ obj =>
           if String.eqb (userv1.Name obj) "ops" then Some Example.conflict else None)
        (GetGroupSyncMgr healthy)
        (ParseStandard healthy) (timeNow healthy) (clockNow healthy).

(** A cluster where [ops] belongs to the ldap provider of team-sync, and a
    group made by hand that no provider reports. *)
Definition opsOwned : userv1.Group :=
  userv1.mkGroup "ops"
    (Some {[ Example.SyncProvider := "team-sync_ldap" ]}) None ["erin"].

Definition admins : userv1.Group :=
  userv1.mkGroup "admins" None None ["root"].

Definition ownedWorld : World :=
  mkWorld {[ "devs" := Example.devsBefore; "ops" := opsOwned ]} 0 [].

Definition adminsWorld : World :=
  mkWorld (<["admins" := admins]> Example.cluster) 0 [].

(** [ops] as the ldap provider of team-sync would write it. *)
Definition opsAfter : userv1.Group :=
  userv1.mkGroup "ops"
    (Some {[ Example.SyncProvider := "team-sync_ldap"; "tier" := "one" ]})
    (Some {[ Example.SyncTimestamp := "2023-01-05T03:04:05Z" ]})
    ["dave"].

(** The world of [ownedWorld] once the ldap provider has merged [devs]. *)
Definition ownedDevsMerged : World :=
  mkWorld (<["devs" := Example.devsAfter]> (groups ownedWorld)) 1
    (prelude "team-sync" ++ syncCalls Example.ldap
     ++ [CallGetGroup "devs"; CallCreateOrUpdateResource Example.devsAfter]).

(** A local mean time, 25 minutes west of Greenwich. *)
Definition lmt : Time := Example.jan5 "LMT" (-1500).

(** The resource team-sync after an earlier pass that failed, never
    synced with success so far. *)
Definition failedBefore : v1alpha1.GroupSync :=
  v1alpha1.mkGroupSync "team-sync"
    (v1alpha1.Spec (Example.instance ""))
    (v1alpha1.mkStatus
       [status.mkCondition "groupsync" status.ConditionTrue
          "synchronization error" "connection refused"]
       None).

End Faulty.

(** ** Runs of the model *)

Example d0_pads_after_the_sign :
  Fmt.d0 3 5 = "005" /\ Fmt.d0 3 (-5) = "-05" /\ Fmt.d0 2 7 = "07"
  /\ Fmt.d0 4 2023 = "2023" /\ Fmt.d0 2 123 = "123".
Proof. repeat split. Qed.

(** A pass without schedule over the example cluster: ldap takes over
    [devs] and skips [ops], github skips [devs], okta creates [qa], and the
    success is stored. *)
Example Reconcile_converges :
  Reconcile Example.SyncProvider Example.SyncTimestamp
    (Example.env (inr (Example.instance "")) false None "" false)
    "team-sync" Example.world
  = (Returned emptyResult None,
     mkWorld (groups Example.allDone) 3
       (trace Example.allDone ++
          [CallStatusUpdate
             (setCondition
                (v1alpha1.withLastSyncSuccessTime (Example.instance "") Example.utc)
                successCondition)])).
Proof. vm_compute. reflexivity. Qed.

(** With the schedule of every minute, at 03:04:05, the next pass is asked
    for in 55 seconds. *)
Example Reconcile_requeues_on_schedule :
  fst (Reconcile Example.SyncProvider Example.SyncTimestamp
         (Example.env (inr (Example.instance "* * * * *")) false None "" false)
         "team-sync" Example.world)
  = Returned (mkResult false 55000000000) None.
Proof. vm_compute. reflexivity. Qed.

(** ** Facts about the reconciler *)

Section ReconcilerFacts.

Variables SyncProvider SyncTimestamp : string.
Variable env : Env.

Abbreviation Reconcile := (Reconcile SyncProvider SyncTimestamp env).
Abbreviation upsert := (upsert SyncProvider SyncTimestamp env).
Abbreviation syncProvider := (syncProvider SyncProvider SyncTimestamp env).
Abbreviation mirrored := (mirrored SyncProvider SyncTimestamp).

Lemma after_after w c1 c2 : after (after w c1) c2 = after w (c1 ++ c2).
Proof. unfold after; simpl. by rewrite <- app_assoc. Qed.

Lemma record_after {R} (c : Call) (w : World) :
  @record R c w = (inr tt, after w [c]).
Proof. reflexivity. Qed.

(** *** The error path *)

Lemma manageError_after instance err w :
  manageError env instance err w
  = ((emptyResult, Some err), after w (errorCalls instance err)).
Proof.
  unfold manageError, run, bind, Event, clientStatusUpdate, log, record,
    return_, ret, after, errorCalls; simpl.
  by rewrite <- !app_assoc.
Qed.

Lemma fail_after {A} instance err w :
  @fail env A instance err w
  = (inl (Returned emptyResult (Some err)), after w (errorCalls instance err)).
Proof.
  unfold fail, bind, call. by rewrite manageError_after.
Qed.

Lemma GetCondition_SetCondition conditions c :
  status.GetCondition (status.SetCondition conditions c) (status.Type_ c) = Some c.
Proof.
  induction conditions as [|c' rest IH]; simpl.
  - by rewrite String.eqb_refl.
  - destruct (String.eqb (status.Type_ c') (status.Type_ c)) eqn:E; simpl.
    + by rewrite String.eqb_refl.
    + by rewrite E.
Qed.

Lemma ofType_SetCondition conditions c :
  (length (ofType (status.Type_ c) conditions) <= 1)%nat ->
  ofType (status.Type_ c) (status.SetCondition conditions c) = [c].
Proof.
  unfold ofType.
  induction conditions as [|c' rest IH]; simpl; intros Hlen.
  - by rewrite String.eqb_refl.
  - destruct (String.eqb (status.Type_ c') (status.Type_ c)) eqn:E; simpl.
    + rewrite String.eqb_refl. f_equal.
      simpl in Hlen.
      destruct (List.filter _ rest); [done | simpl in Hlen; lia].
    + rewrite E. by apply IH.
Qed.


(** *** Loops *)

Lemma forEach_app {R A S} (l1 l2 : list A) (body : A -> S -> Proc R S) s w :
  forEach (l1 ++ l2) body s w = bind (forEach l1 body s) (forEach l2 body) w.
Proof.
  revert s w. induction l1 as [|x l1 IH]; intros s w; simpl.
  - reflexivity.
  - unfold bind. destruct (body x s w) as [[r|s'] w']; [done|].
    rewrite IH. reflexivity.
Qed.

(** A loop that runs into a [return] at an element stops there. *)
Lemma forEach_returns {R A S} (pre post : list A) x (body : A -> S -> Proc R S)
    s s' w w' r w'' :
  forEach pre body s w = (inr s', w') ->
  body x s' w' = (inl r, w'') ->
  forEach (pre ++ x :: post) body s w = (inl r, w'').
Proof.
  intros Hpre Hx. rewrite forEach_app. unfold bind. rewrite Hpre. simpl.
  unfold bind. by rewrite Hx.
Qed.

(** A loop goes on after an element that goes on. *)
Lemma forEach_continues {R A S} x (rest : list A) (body : A -> S -> Proc R S)
    s s' w w' :
  body x s w = (inr s', w') ->
  forEach (x :: rest) body s w = forEach rest body s' w'.
Proof. intros Hx. simpl. unfold bind. by rewrite Hx. Qed.

(** *** The steps up to the loop over the providers *)

Lemma Reconcile_reaches_loop req w instance0 mgr instance :
  Get env req = inr instance0 ->
  GetGroupSyncMgr env instance0 = inr mgr ->
  SetDefaults mgr instance0 = (instance, false) ->
  Validate mgr = None ->
  Reconcile req w
  = run (bind (forEach (GroupSyncers mgr) (syncProvider instance) tt)
              (fun _ => finish env instance))
        (after w (prelude req)).
Proof.
  intros Hget Hmgr Hdef Hval.
  unfold Reconcile, run, bind at 1, clientGet, bind at 1, record, ret; simpl.
  rewrite Hget. unfold bind at 1. simpl. rewrite Hmgr.
  unfold bind at 1. simpl. rewrite Hdef.
  unfold bind at 1. simpl. rewrite Hval.
  unfold after, prelude; simpl. by rewrite <- !app_assoc.
Qed.

(** A [return] inside the loop over the providers is the result. *)
Lemma Reconcile_returns_from_loop req w instance0 mgr instance pre s post w2 out w3 :
  Get env req = inr instance0 ->
  GetGroupSyncMgr env instance0 = inr mgr ->
  SetDefaults mgr instance0 = (instance, false) ->
  Validate mgr = None ->
  GroupSyncers mgr = (pre ++ s :: post)%list ->
  forEach pre (syncProvider instance) tt (after w (prelude req)) = (inr tt, w2) ->
  syncProvider instance s tt w2 = (inl out, w3) ->
  Reconcile req w = (out, w3).
Proof.
  intros Hget Hmgr Hdef Hval Hsyncers Hpre Hs.
  rewrite (Reconcile_reaches_loop _ _ _ _ _ Hget Hmgr Hdef Hval), Hsyncers.
  unfold run, bind.
  by rewrite (forEach_returns _ _ _ _ _ _ _ _ _ _ Hpre Hs).
Qed.


(** *** Fetching and defaulting *)

(** C7: when the fetch of the resource reports not-found, Reconcile ends
    with no error and no requeue delay, and when it fails otherwise,
    Reconcile returns that error with no requeue delay; in both cases the
    fetch is the only call made and no Group object is touched. *)
Theorem Reconcile_fetch_failure req w err :
  Get env req = inl err ->
  Reconcile req w
  = (Returned emptyResult (if IsNotFound err then None else Some err),
     after w [CallGet req]).
Proof.
  intros Hget.
  unfold Reconcile, run, bind, clientGet, record, ret; simpl.
  rewrite Hget. by destruct (IsNotFound err).
Qed.

(** C8: when defaulting changes the spec and the update of the resource
    succeeds, Reconcile ends with no error and no requeue delay; it has
    fetched, built the manager, defaulted and updated, and nothing else:
    no validation, bind, sync, write of a Group or status update, and the
    clock was not read. *)
Theorem Reconcile_defaulting_short_circuit req w instance0 mgr instance :
  Get env req = inr instance0 ->
  GetGroupSyncMgr env instance0 = inr mgr ->
  SetDefaults mgr instance0 = (instance, true) ->
  Update env instance = None ->
  Reconcile req w
  = (Returned emptyResult None,
     after w [CallGet req; CallGetGroupSyncMgr; CallSetDefaults;
              CallUpdate instance]).
Proof.
  intros Hget Hmgr Hdef Hupd.
  unfold Reconcile, run, bind at 1, clientGet, bind at 1, record, ret; simpl.
  rewrite Hget. unfold bind at 1. simpl. rewrite Hmgr.
  unfold bind at 1. simpl. rewrite Hdef.
  unfold bind, clientUpdate, bind, record, ret, return_; simpl.
  rewrite Hupd. unfold after; simpl. by rewrite <- !app_assoc.
Qed.

(** *** The error path *)

(** C6: for every error handed to the error path, manageError emits the
    warning event, sets the condition of type groupsync to the reason
    "synchronization error" with the error's text (the only condition of
    that type when there was at most one), asks for the status update and
    returns the error it was given, whatever the status update answers;
    and Reconcile returns what manageError returned. *)
Theorem manageError_returns_original_error instance err w :
  (length (ofType groupsync (v1alpha1.Conditions (v1alpha1.Status instance))) <= 1)%nat ->
  manageError env instance err w
  = ((emptyResult, Some err), after w (errorCalls instance err))
  /\ errorCalls instance err
     = [CallEvent (v1alpha1.Name instance) "Warning" "GroupSyncError" (Error err);
        CallStatusUpdate (setCondition instance (errorCondition err));
        CallLog "unable to update status"]
  /\ ofType groupsync
       (v1alpha1.Conditions
          (v1alpha1.Status (setCondition instance (errorCondition err))))
     = [status.mkCondition groupsync status.ConditionTrue
          "synchronization error" (Error err)]
  /\ run (fail env instance err) w
     = (Returned emptyResult (Some err), after w (errorCalls instance err)).
Proof.
  intros Hone. repeat split.
  - apply manageError_after.
  - apply (ofType_SetCondition _ (errorCondition err)), Hone.
  - unfold run. by rewrite fail_after.
Qed.


(** *** The merge step *)

Lemma target_found instance providerLabel group ocpGroup w :
  GetGroupFault env (groups w) (userv1.Name group) = None ->
  groups w !! userv1.Name group = Some ocpGroup ->
  target SyncProvider env instance providerLabel group w
  = (match userv1.index (userv1.Labels ocpGroup) SyncProvider with
     | Some l =>
         if String.eqb l providerLabel
         then (inr (Some ocpGroup), after w [CallGetGroup (userv1.Name group)])
         else (inr None, after w (skipCalls group))
     | None => (inr None, after w (skipCalls group))
     end).
Proof.
  intros Hfault Hfound.
  unfold target, bind at 1, clientGetGroup, bind at 1, record, lookupGroup; simpl.
  rewrite Hfault, Hfound.
  destruct (userv1.index (userv1.Labels ocpGroup) SyncProvider) as [l|];
    [destruct (String.eqb l providerLabel)|];
    unfold bind, log, record, ret, after, skipCalls; simpl;
    by rewrite <- ?app_assoc.
Qed.

(** C1: an existing Group whose ownership label is absent or differs from
    the tag <resourceName>_<providerName> of the provider at hand is
    skipped: the step reads it and logs, writes nothing (the stored
    objects, this one included, are as before), counts no update, does not
    return from Reconcile, and the loop goes on with the remaining
    groups. *)
Theorem upsert_skips_foreign_group instance groupSyncer group ocpGroup n w rest :
  GetGroupFault env (groups w) (userv1.Name group) = None ->
  groups w !! userv1.Name group = Some ocpGroup ->
  userv1.index (userv1.Labels ocpGroup) SyncProvider
    <> Some (v1alpha1.Name instance ++ "_" ++ GetProviderName groupSyncer) ->
  upsert instance (providerLabelOf instance groupSyncer) group n w
  = (inr n, after w (skipCalls group))
  /\ groups (after w (skipCalls group)) = groups w
  /\ groups (after w (skipCalls group)) !! userv1.Name group = Some ocpGroup
  /\ forEach (group :: rest) (upsert instance (providerLabelOf instance groupSyncer)) n w
     = forEach rest (upsert instance (providerLabelOf instance groupSyncer)) n
         (after w (skipCalls group)).
Proof.
  intros Hfault Hfound Hforeign.
  assert (Hstep : upsert instance (providerLabelOf instance groupSyncer) group n w
                  = (inr n, after w (skipCalls group))).
  { unfold upsert, bind at 1.
    rewrite (target_found _ _ _ _ _ Hfault Hfound).
    fold (providerLabelOf instance groupSyncer) in Hforeign.
    destruct (userv1.index (userv1.Labels ocpGroup) SyncProvider) as [l|]; [|done].
    destruct (String.eqb_spec l (providerLabelOf instance groupSyncer)) as [->|Hne];
      [done|reflexivity]. }
  repeat split; [exact Hstep | exact Hfound |].
  by apply forEach_continues.
Qed.

(** C4: an existing Group whose ownership label is the provider's tag is
    overwritten in full: the object stored afterwards has exactly the
    provider's labels plus the ownership label (which wins over a label
    of the provider under the same key), exactly the provider's
    annotations plus the timestamp, and the provider's members; nothing of
    the labels, annotations and members it had before is kept. *)
Theorem upsert_overwrites_owned_group instance groupSyncer group ocpGroup n w :
  GetGroupFault env (groups w) (userv1.Name group) = None ->
  groups w !! userv1.Name group = Some ocpGroup ->
  userv1.Name ocpGroup = userv1.Name group ->
  userv1.index (userv1.Labels ocpGroup) SyncProvider
    = Some (providerLabelOf instance groupSyncer) ->
  CreateOrUpdateFault env (groups w)
    (mirrored (providerLabelOf instance groupSyncer) (timeNow env (ticks w)) group)
    = None ->
  upsert instance (providerLabelOf instance groupSyncer) group n w
  = (inr (S n),
     mkWorld
       (<[userv1.Name group :=
            mirrored (providerLabelOf instance groupSyncer)
              (timeNow env (ticks w)) group]> (groups w))
       (S (ticks w))
       (trace w ++
          [CallGetGroup (userv1.Name group);
           CallCreateOrUpdateResource
             (mirrored (providerLabelOf instance groupSyncer)
                (timeNow env (ticks w)) group)]))
  /\ (forall k,
        userv1.index
          (userv1.Labels
             (mirrored (providerLabelOf instance groupSyncer)
                (timeNow env (ticks w)) group)) k
        = if decide (k = SyncProvider)
          then Some (providerLabelOf instance groupSyncer)
          else userv1.index (userv1.Labels group) k)
  /\ (forall k,
        userv1.index
          (userv1.Annotations
             (mirrored (providerLabelOf instance groupSyncer)
                (timeNow env (ticks w)) group)) k
        = if decide (k = SyncTimestamp)
          then Some (ISO8601 (timeNow env (ticks w)))
          else userv1.index (userv1.Annotations group) k)
  /\ userv1.Users
       (mirrored (providerLabelOf instance groupSyncer)
          (timeNow env (ticks w)) group)
     = userv1.Users group.
Proof.
  intros Hfault Hfound Hname Howned Hwrite.
  split; [|split; [|split; [|reflexivity]]].
  - unfold upsert, bind at 1.
    rewrite (target_found _ _ _ _ _ Hfault Hfound), Howned, String.eqb_refl.
    unfold bind at 1, tick; simpl.
    unfold bind, CreateOrUpdateResource, bind, record; simpl.
    rewrite Hname.
    change (userv1.SetUsers _ (userv1.Users group))
      with (mirrored (providerLabelOf instance groupSyncer)
              (timeNow env (ticks w)) group).
    rewrite Hwrite. unfold ret; simpl. by rewrite <- app_assoc.
  - intros k. simpl. case_decide as Hk.
    + subst k. apply lookup_insert_eq.
    + rewrite lookup_insert_ne by done.
      destruct (userv1.Labels group); [done|apply lookup_empty].
  - intros k. simpl. case_decide as Hk.
    + subst k. apply lookup_insert_eq.
    + rewrite lookup_insert_ne by done.
      destruct (userv1.Annotations group); [done|apply lookup_empty].
Qed.


(** *** The loop over the providers *)

Lemma syncProvider_fails instance groupSyncer err w :
  Bind groupSyncer = Some err
  \/ (Bind groupSyncer = None /\ Sync groupSyncer = inl err) ->
  syncProvider instance groupSyncer tt w
  = (inl (Returned emptyResult (Some err)),
     after w (failedCalls groupSyncer ++ errorCalls instance err)).
Proof.
  intros [Hbind|[Hbind Hsync]];
    unfold syncProvider, failedCalls, bind at 1, log at 1;
    rewrite record_after; unfold bind at 1; rewrite record_after, Hbind.
  - by rewrite fail_after, after_after, after_after.
  - unfold bind at 1. rewrite record_after, Hsync.
    unfold bind at 1, log at 1. rewrite record_after.
    by rewrite fail_after, !after_after.
Qed.

(** C5: with the providers taken in the order of the manager, when the
    providers before one have been synced and that one fails at Bind or at
    Sync, Reconcile goes through the error path and returns that error;
    the Group objects are those the earlier providers left, nothing is
    undone, and no provider after the failing one is bound or synced. *)
Theorem Reconcile_aborts_on_provider_failure
    req w instance0 mgr instance pre groupSyncer post w2 err :
  Get env req = inr instance0 ->
  GetGroupSyncMgr env instance0 = inr mgr ->
  SetDefaults mgr instance0 = (instance, false) ->
  Validate mgr = None ->
  GroupSyncers mgr = (pre ++ groupSyncer :: post)%list ->
  forEach pre (syncProvider instance) tt (after w (prelude req)) = (inr tt, w2) ->
  Bind groupSyncer = Some err
  \/ (Bind groupSyncer = None /\ Sync groupSyncer = inl err) ->
  Reconcile req w
  = (Returned emptyResult (Some err),
     after w2 (failedCalls groupSyncer ++ errorCalls instance err))
  /\ groups (snd (Reconcile req w)) = groups w2.
Proof.
  intros Hget Hmgr Hdef Hval Hsyncers Hpre Hfail.
  assert (Hrun := Reconcile_returns_from_loop _ _ _ _ _ _ _ _ _ _ _
                    Hget Hmgr Hdef Hval Hsyncers Hpre
                    (syncProvider_fails instance groupSyncer err w2 Hfail)).
  split; [exact Hrun|]. by rewrite Hrun.
Qed.

Lemma syncProvider_reaches_groups instance groupSyncer gs w :
  Bind groupSyncer = None ->
  Sync groupSyncer = inr gs ->
  syncProvider instance groupSyncer tt w
  = bind (forEach gs (upsert instance (providerLabelOf instance groupSyncer)) 0%nat)
         (fun _ => log "Sync Completed Successfully")
         (after w (syncCalls groupSyncer)).
Proof.
  intros Hbind Hsync.
  unfold syncProvider, syncCalls, bind at 1, log at 1.
  rewrite record_after. unfold bind at 1. rewrite record_after, Hbind.
  unfold bind at 1. rewrite record_after, Hsync.
  by rewrite !after_after.
Qed.

Lemma upsert_lookup_fails instance providerLabel group n w err :
  GetGroupFault env (groups w) (userv1.Name group) = Some err ->
  IsNotFound err = false ->
  upsert instance providerLabel group n w
  = (inl (Returned emptyResult (Some err)),
     after w (CallGetGroup (userv1.Name group) :: errorCalls instance err)).
Proof.
  intros Hfault Hother.
  unfold upsert, bind at 1, target, bind at 1, clientGetGroup, bind at 1.
  rewrite record_after. unfold lookupGroup; simpl. rewrite Hfault, Hother.
  by rewrite fail_after, after_after.
Qed.

(** C9: when the lookup of a Group fails with an error that is not
    not-found, Reconcile goes through the error path and returns that
    error: it emits the warning event GroupSyncError with the error's text,
    asks for the update of a status whose condition of type groupsync is
    the one of reason "synchronization error" with the error's text, and
    logs; the group is not written, and neither the groups after it nor the
    providers after this one are looked at. *)
Theorem Reconcile_aborts_on_group_lookup_failure
    req w instance0 mgr instance pre groupSyncer post w2 gpre group gpost n w3 err :
  Get env req = inr instance0 ->
  GetGroupSyncMgr env instance0 = inr mgr ->
  SetDefaults mgr instance0 = (instance, false) ->
  Validate mgr = None ->
  GroupSyncers mgr = (pre ++ groupSyncer :: post)%list ->
  forEach pre (syncProvider instance) tt (after w (prelude req)) = (inr tt, w2) ->
  Bind groupSyncer = None ->
  Sync groupSyncer = inr (gpre ++ group :: gpost)%list ->
  forEach gpre (upsert instance (providerLabelOf instance groupSyncer)) 0%nat
    (after w2 (syncCalls groupSyncer)) = (inr n, w3) ->
  GetGroupFault env (groups w3) (userv1.Name group) = Some err ->
  IsNotFound err = false ->
  Reconcile req w
  = (Returned emptyResult (Some err),
     after w3 (CallGetGroup (userv1.Name group) :: errorCalls instance err))
  /\ groups (snd (Reconcile req w)) = groups w3
  /\ errorCalls instance err
     = [CallEvent (v1alpha1.Name instance) "Warning" "GroupSyncError" (Error err);
        CallStatusUpdate (setCondition instance (errorCondition err));
        CallLog "unable to update status"]
  /\ status.GetCondition
       (v1alpha1.Conditions
          (v1alpha1.Status (setCondition instance (errorCondition err))))
       "groupsync"
     = Some (status.mkCondition "groupsync" status.ConditionTrue
               "synchronization error" (Error err))
  /\ v1alpha1.Name (setCondition instance (errorCondition err))
     = v1alpha1.Name instance
  /\ v1alpha1.Spec (setCondition instance (errorCondition err))
     = v1alpha1.Spec instance.
Proof.
  intros Hget Hmgr Hdef Hval Hsyncers Hpre Hbind Hsync Hgpre Hfault Hother.
  assert (Hs : syncProvider instance groupSyncer tt w2
               = (inl (Returned emptyResult (Some err)),
                  after w3 (CallGetGroup (userv1.Name group)
                              :: errorCalls instance err))).
  { rewrite (syncProvider_reaches_groups _ _ _ _ Hbind Hsync). unfold bind.
    by rewrite (forEach_returns _ _ _ _ _ _ _ _ _ _ Hgpre
                  (upsert_lookup_fails instance _ group n w3 err Hfault Hother)). }
  assert (Hrun := Reconcile_returns_from_loop _ _ _ _ _ _ _ _ _ _ _
                    Hget Hmgr Hdef Hval Hsyncers Hpre Hs).
  split; [exact Hrun|]. split; [by rewrite Hrun|].
  split; [reflexivity|]. split; [|split; reflexivity].
  apply (GetCondition_SetCondition _ (errorCondition err)).
Qed.

(** *** The schedule *)

(** C2, as the code has it: after a pass whose providers all synced and
    whose success was stored, a schedule that does not parse makes
    Reconcile panic, since the parse error is dropped and Next is called
    on the nil Schedule; Reconcile returns nothing. *)
Theorem Reconcile_panics_on_malformed_schedule
    req w instance0 mgr instance w2 stored parseErr :
  Get env req = inr instance0 ->
  GetGroupSyncMgr env instance0 = inr mgr ->
  SetDefaults mgr instance0 = (instance, false) ->
  Validate mgr = None ->
  forEach (GroupSyncers mgr) (syncProvider instance) tt (after w (prelude req))
  = (inr tt, w2) ->
  StatusUpdate env
    (setCondition
       (v1alpha1.withLastSyncSuccessTime instance (clockNow env (ticks w2)))
       successCondition)
  = inr stored ->
  v1alpha1.Schedule (v1alpha1.Spec stored) <> "" ->
  ParseStandard env (v1alpha1.Schedule (v1alpha1.Spec stored)) = inl parseErr ->
  fst (Reconcile req w) = Panicked
  /\ forall res err, fst (Reconcile req w) <> Returned res err.
Proof.
  intros Hget Hmgr Hdef Hval Hloop Hstore Hsched Hparse.
  assert (Hrun : fst (Reconcile req w) = Panicked).
  { rewrite (Reconcile_reaches_loop _ _ _ _ _ Hget Hmgr Hdef Hval).
    unfold run, bind at 1. rewrite Hloop.
    unfold finish, bind at 1, tick; simpl.
    unfold bind at 1, call, manageSuccess, run, bind at 1, clientStatusUpdate,
      bind at 1, record, ret; simpl.
    rewrite Hstore. unfold return_; simpl.
    destruct (String.eqb_spec (v1alpha1.Schedule (v1alpha1.Spec stored)) "")
      as [Hempty|_]; [done|].
    unfold bind, record, tick; simpl. by rewrite Hparse. }
  split; [exact Hrun|]. intros res err. by rewrite Hrun.
Qed.

End ReconcilerFacts.

(** ** Facts about the formatter *)

Lemma tzSuffix_named zone offset :
  zone <> "UTC" -> tzSuffix zone offset = Fmt.d0 3 (Z.quot offset 3600) ++ "00".
Proof.
  intros Hzone. unfold tzSuffix.
  by destruct (String.eqb_spec zone "UTC").
Qed.

(** C3, as the code has it: the UTC time 2023-01-05T03:04:05 is printed as
    "2023-01-05T03:04:05Z", and the same wall-clock time at UTC+5 is
    printed as "2023-01-05T03:04:0500500", not "2023-01-05T03:04:05+0500":
    a positive offset gets three digits and no sign, where a negative one
    gets the sign and two digits. *)
Theorem ISO8601_positive_offset_unsigned :
  ISO8601 Example.utc = "2023-01-05T03:04:05Z"
  /\ ISO8601 Example.plus5 = "2023-01-05T03:04:0500500"
  /\ ISO8601 Example.plus5 <> "2023-01-05T03:04:05+0500"
  /\ ISO8601 Example.minus5 = "2023-01-05T03:04:05-0500".
Proof. repeat split. discriminate. Qed.

(** C10: the suffix is chosen by the name of the zone: a time whose zone is
    named "UTC" gets "Z", and a time whose zone has another name gets the
    offset in whole hours followed by "00", also at offset zero, where it
    gets "00000"; the minutes of the offset are dropped, so that the time
    prints as it would at the offset cut to whole hours. *)
Theorem ISO8601_suffix_by_zone_name (t u : Time) :
  ZoneName t <> "UTC" ->
  ZoneName u = "UTC" ->
  ISO8601 u = civil u ++ "Z"
  /\ ISO8601 t = civil t ++ Fmt.d0 3 (Z.quot (ZoneOffset t) 3600) ++ "00"
  /\ ISO8601 (withOffset t 0) = civil t ++ "00000"
  /\ ISO8601 t = ISO8601 (withOffset t (3600 * Z.quot (ZoneOffset t) 3600)).
Proof.
  intros Ht Hu. repeat split.
  - unfold ISO8601, tzSuffix. by rewrite Hu.
  - unfold ISO8601. by rewrite tzSuffix_named.
  - unfold ISO8601; simpl. by rewrite tzSuffix_named.
  - unfold ISO8601; simpl. rewrite !tzSuffix_named by done.
    by rewrite Z.mul_comm, Z.quot_mul.
Qed.

(** ** The Group store over a whole pass *)

Section StoreFacts.

Variables SyncProvider SyncTimestamp : string.
Variable env : Env.

Abbreviation Reconcile := (Reconcile SyncProvider SyncTimestamp env).
Abbreviation upsert := (upsert SyncProvider SyncTimestamp env).
Abbreviation syncProvider := (syncProvider SyncProvider SyncTimestamp env).
Abbreviation mirrored := (mirrored SyncProvider SyncTimestamp).
Abbreviation written := (written SyncProvider SyncTimestamp).
Abbreviation writable := (writable SyncProvider env).
Abbreviation finish := (finish env).

(** *** One merge step *)

(** The lookup of lines 121 to 137, evaluated. *)
Lemma target_eval instance providerLabel group w :
  target SyncProvider env instance providerLabel group w
  = match lookupGroup env w (userv1.Name group) with
    | inl err =>
        if IsNotFound err
        then (inr (Some (fresh group)), after w [CallGetGroup (userv1.Name group)])
        else (inl (Returned emptyResult (Some err)),
              after w (CallGetGroup (userv1.Name group) :: errorCalls instance err))
    | inr o =>
        match userv1.index (userv1.Labels o) SyncProvider with
        | Some l =>
            if String.eqb l providerLabel
            then (inr (Some o), after w [CallGetGroup (userv1.Name group)])
            else (inr None, after w (skipCalls group))
        | None => (inr None, after w (skipCalls group))
        end
    end.
Proof.
  unfold target, bind at 1, clientGetGroup, bind at 1.
  rewrite record_after. cbv beta iota.
  change (lookupGroup env (after w [CallGetGroup (userv1.Name group)])
            (userv1.Name group))
    with (lookupGroup env w (userv1.Name group)).
  destruct (lookupGroup env w (userv1.Name group)) as [err|o].
  - destruct (IsNotFound err); [reflexivity|].
    by rewrite fail_after, after_after.
  - destruct (userv1.index (userv1.Labels o) SyncProvider) as [l|];
      [destruct (String.eqb l providerLabel); [reflexivity|]|];
      unfold bind, log; rewrite record_after; unfold ret;
      by rewrite after_after.
Qed.

(** Lines 139 to 168, evaluated, once the lookup has given an object. *)
Lemma upsert_after_target instance providerLabel group n w ocpGroup calls :
  target SyncProvider env instance providerLabel group w
  = (inr (Some ocpGroup), after w calls) ->
  upsert instance providerLabel group n w
  = match CreateOrUpdateFault env (groups w)
            (written ocpGroup providerLabel (timeNow env (ticks w)) group) with
    | Some err =>
        (inl (Returned emptyResult (Some err)),
         after (mkWorld (groups w) (S (ticks w)) (trace w))
           (calls ++
            [CallCreateOrUpdateResource
               (written ocpGroup providerLabel (timeNow env (ticks w)) group);
             CallLog "Failed to Create or Update OpenShift Group"]
            ++ errorCalls instance err))
    | None =>
        (inr (S n),
         mkWorld
           (<[userv1.Name ocpGroup :=
                written ocpGroup providerLabel (timeNow env (ticks w)) group]>
              (groups w))
           (S (ticks w))
           (trace w ++ calls ++
            [CallCreateOrUpdateResource
               (written ocpGroup providerLabel (timeNow env (ticks w)) group)]))
    end.
Proof.
  intros Ht. unfold upsert, bind at 1. rewrite Ht.
  unfold bind at 1, tick; simpl.
  unfold bind at 1, CreateOrUpdateResource, bind at 1.
  rewrite record_after. cbv beta iota.
  change (userv1.SetUsers _ (userv1.Users group))
    with (written ocpGroup providerLabel (timeNow env (ticks w)) group).
  simpl.
  destruct (CreateOrUpdateFault env (groups w)
              (written ocpGroup providerLabel (timeNow env (ticks w)) group)).
  - unfold bind at 1, log. rewrite record_after, fail_after.
    unfold after; simpl. by rewrite <- !app_assoc.
  - unfold ret. by rewrite <- !app_assoc.
Qed.

(** The three ways a merge step ends: through the error path with the
    store as it was, with the group skipped and the store as it was, or
    with one object written. *)
Lemma upsert_cases instance providerLabel group n w :
  (exists err w',
     upsert instance providerLabel group n w
     = (inl (Returned emptyResult (Some err)), w')
     /\ groups w' = groups w)
  \/ (exists w',
        upsert instance providerLabel group n w = (inr n, w')
        /\ groups w' = groups w)
  \/ (exists ocpGroup w',
        writable (groups w) providerLabel group ocpGroup
        /\ upsert instance providerLabel group n w = (inr (S n), w')
        /\ groups w'
           = <[userv1.Name ocpGroup :=
                 written ocpGroup providerLabel (timeNow env (ticks w)) group]>
               (groups w)).
Proof.
  pose proof (target_eval instance providerLabel group w) as Ht.
  unfold writable.
  change (lookupGroup env (mkWorld (groups w) 0 []) (userv1.Name group))
    with (lookupGroup env w (userv1.Name group)).
  revert Ht.
  destruct (lookupGroup env w (userv1.Name group)) as [err|o].
  - destruct (IsNotFound err) eqn:Hnf; intros Ht.
    + rewrite (upsert_after_target _ _ _ _ _ _ _ Ht).
      destruct (CreateOrUpdateFault _ _ _); [left|right; right]; eauto 10.
    + left. unfold upsert, bind. rewrite Ht. eauto.
  - destruct (userv1.index (userv1.Labels o) SyncProvider) as [l|].
    + destruct (String.eqb_spec l providerLabel) as [->|Hne]; intros Ht.
      * rewrite (upsert_after_target _ _ _ _ _ _ _ Ht).
        destruct (CreateOrUpdateFault _ _ _); [left|right; right]; eauto 10.
      * right. left. unfold upsert, bind. rewrite Ht. eauto.
    + intros Ht. right. left. unfold upsert, bind. rewrite Ht. eauto.
Qed.

(** *** Properties of the store kept by the loops *)

Lemma keeps_forEach {A S} (I : gmap string userv1.Group -> Prop) (l : list A)
    (body : A -> S -> Proc Outcome S) s :
  (forall x s', x ∈ l -> keeps I (body x s')) ->
  keeps I (forEach l body s).
Proof.
  revert s. induction l as [|x l IH]; intros s Hbody w HI; simpl.
  - exact HI.
  - unfold bind. pose proof (Hbody x s ltac:(left) w HI) as Hx.
    destruct (body x s w) as [[out|s'] w']; [exact Hx|].
    apply IH; [|exact Hx]. intros y s'' Hy. apply Hbody. by right.
Qed.

Lemma upsert_keeps (I : gmap string userv1.Group -> Prop)
    instance providerLabel group n :
  (forall st ocpGroup now,
     writable st providerLabel group ocpGroup -> I st ->
     I (<[userv1.Name ocpGroup := written ocpGroup providerLabel now group]> st)) ->
  keeps I (upsert instance providerLabel group n).
Proof.
  intros Hwrite w HI.
  destruct (upsert_cases instance providerLabel group n w)
    as [(err & w' & -> & ->)|[(w' & -> & ->)|(ocp & w' & Hok & -> & ->)]].
  - split; [by exists err|exact HI].
  - exact HI.
  - by apply Hwrite.
Qed.

Lemma syncProvider_keeps (I : gmap string userv1.Group -> Prop) instance groupSyncer :
  (forall gs group st ocpGroup now,
     Sync groupSyncer = inr gs -> group ∈ gs ->
     writable st (providerLabelOf instance groupSyncer) group ocpGroup -> I st ->
     I (<[userv1.Name ocpGroup :=
            written ocpGroup (providerLabelOf instance groupSyncer) now group]> st)) ->
  keeps I (syncProvider instance groupSyncer tt).
Proof.
  intros Hwrite w HI.
  destruct (Bind groupSyncer) as [err|] eqn:Hbind.
  - rewrite (syncProvider_fails _ _ _ instance groupSyncer err w) by (by left).
    split; [by exists err|exact HI].
  - destruct (Sync groupSyncer) as [err|gs] eqn:Hsync.
    + rewrite (syncProvider_fails _ _ _ instance groupSyncer err w) by (by right).
      split; [by exists err|exact HI].
    + rewrite (syncProvider_reaches_groups _ _ _ _ _ _ _ Hbind Hsync).
      unfold bind.
      pose proof (keeps_forEach I gs
                    (upsert instance (providerLabelOf instance groupSyncer)) 0%nat)
        as Hloop.
      specialize (Hloop (fun group n Hin =>
                           upsert_keeps I instance _ group n
                             (fun st ocp now => Hwrite gs group st ocp now eq_refl Hin))).
      specialize (Hloop (after w (syncCalls groupSyncer)) HI).
      destruct (forEach gs _ 0%nat (after w (syncCalls groupSyncer)))
        as [[out|n] w']; [exact Hloop|].
      exact Hloop.
Qed.

(** The success path never touches the Group store, and an error it
    returns comes with the empty result. *)
Lemma finish_shape instance w :
  exists out w',
    finish instance w = (inl out, w')
    /\ groups w' = groups w
    /\ (forall res err, out = Returned res (Some err) -> res = emptyResult).
Proof.
  unfold finish, bind at 1, tick; simpl.
  unfold bind at 1, call, manageSuccess, run, bind at 1, clientStatusUpdate,
    bind at 1, record, ret; simpl.
  destruct (StatusUpdate env _) as [err|stored]; simpl.
  - do 2 eexists. split; [reflexivity|]. split; [reflexivity|].
    intros res err' [= <- _]. reflexivity.
  - unfold return_; simpl.
    destruct (String.eqb _ ""); simpl.
    + do 2 eexists. split; [reflexivity|]. split; [reflexivity|]. by intros.
    + unfold bind, record, tick; simpl.
      destruct (ParseStandard env _);
        do 2 eexists; (split; [reflexivity|]); (split; [reflexivity|]); by intros.
Qed.

(** A property of the Group store that every write of the pass keeps holds
    after Reconcile, however it ends; and an error never comes with a
    requeue delay. *)
Lemma Reconcile_footprint (I : gmap string userv1.Group -> Prop) req w :
  (forall instance0 mgr groupSyncer gs group st ocpGroup now,
     Get env req = inr instance0 ->
     GetGroupSyncMgr env instance0 = inr mgr ->
     groupSyncer ∈ GroupSyncers mgr ->
     Sync groupSyncer = inr gs -> group ∈ gs ->
     writable st
       (providerLabelOf (fst (SetDefaults mgr instance0)) groupSyncer) group ocpGroup ->
     I st ->
     I (<[userv1.Name ocpGroup :=
            written ocpGroup
              (providerLabelOf (fst (SetDefaults mgr instance0)) groupSyncer)
              now group]> st)) ->
  I (groups w) ->
  forall out w',
    Reconcile req w = (out, w') ->
    I (groups w')
    /\ (forall res err, out = Returned res (Some err) -> res = emptyResult).
Proof.
  intros Hwrite HI out w'.
  unfold Reconcile, run, bind at 1, clientGet, bind at 1.
  rewrite record_after. unfold ret at 1. cbv beta iota.
  destruct (Get env req) as [err|instance0] eqn:Hget.
  { destruct (IsNotFound err); intros [= <- <-]; (split; [exact HI|]);
      intros res err'; [discriminate|by intros [= <- _]]. }
  unfold bind at 1. rewrite record_after. cbv beta iota.
  destruct (GetGroupSyncMgr env instance0) as [err|mgr] eqn:Hmgr.
  { rewrite fail_after. intros [= <- <-]. split; [exact HI|].
    by intros res err' [= <- _]. }
  unfold bind at 1. rewrite record_after. cbv beta iota.
  specialize (Hwrite instance0 mgr).
  destruct (SetDefaults mgr instance0) as [instance changed].
  destruct changed.
  { unfold bind at 1, clientUpdate, bind at 1. rewrite record_after.
    unfold ret at 1. cbv beta iota.
    destruct (Update env instance) as [err|].
    - unfold bind at 1, log. rewrite record_after, fail_after.
      intros [= <- <-]. split; [exact HI|]. by intros res err' [= <- _].
    - intros [= <- <-]. split; [exact HI|]. intros res err'. discriminate. }
  unfold bind at 1. rewrite record_after. cbv beta iota.
  destruct (Validate mgr) as [err|].
  { rewrite fail_after. intros [= <- <-]. split; [exact HI|].
    by intros res err' [= <- _]. }
  unfold bind at 1.
  pose proof (keeps_forEach I (GroupSyncers mgr) (syncProvider instance) tt) as Hloop.
  specialize (Hloop (fun s u Hin =>
                match u with
                | tt => syncProvider_keeps I instance s
                          (fun gs group st ocp now Hs Hg =>
                             Hwrite s gs group st ocp now eq_refl Hmgr Hin Hs Hg)
                end)).
  match goal with
  | |- context [forEach (GroupSyncers mgr) (syncProvider instance) tt ?w0] =>
      specialize (Hloop w0 HI);
      destruct (forEach (GroupSyncers mgr) (syncProvider instance) tt w0)
        as [[out0|[]] w2]
  end.
  - destruct Hloop as [[err ->] HI2]. intros [= <- <-]. split; [exact HI2|].
    by intros res err' [= <- _].
  - destruct (finish_shape instance w2) as (out1 & w3 & -> & Hsame & Hout).
    intros [= <- <-]. rewrite Hsame. split; [exact Hloop|exact Hout].
Qed.

(** *** What a pass does to the store *)

Lemma Reconcile_split req w : Reconcile req w = (fst (Reconcile req w), snd (Reconcile req w)).
Proof. by destruct (Reconcile req w). Qed.

(** X1: Reconcile never deletes a Group: a name that holds an object before
    the pass holds one after it, however the pass ends. *)
Theorem Reconcile_never_deletes_groups req w name :
  is_Some (groups w !! name) ->
  is_Some (groups (snd (Reconcile req w)) !! name).
Proof.
  intros Hsome.
  apply (Reconcile_footprint (fun st => is_Some (st !! name)) req w)
    with (out := fst (Reconcile req w)); [|exact Hsome|apply Reconcile_split].
  intros instance0 mgr s gs group st ocp now _ _ _ _ _ _ Hst.
  rewrite lookup_insert_is_Some. destruct (decide (userv1.Name ocp = name)); auto.
Qed.

(** X2: every Group that differs after the pass from what it was before
    carries the ownership label of one of the providers of the manager, a
    sync timestamp, and its own name. *)
Theorem Reconcile_changed_groups_are_owned req w name :
  groups (snd (Reconcile req w)) !! name = groups w !! name
  \/ exists o instance0 mgr groupSyncer,
       groups (snd (Reconcile req w)) !! name = Some o
       /\ Get env req = inr instance0
       /\ GetGroupSyncMgr env instance0 = inr mgr
       /\ groupSyncer ∈ GroupSyncers mgr
       /\ userv1.index (userv1.Labels o) SyncProvider
          = Some (providerLabelOf (fst (SetDefaults mgr instance0)) groupSyncer)
       /\ is_Some (userv1.index (userv1.Annotations o) SyncTimestamp)
       /\ userv1.Name o = name.
Proof.
  apply (Reconcile_footprint
           (fun st =>
              st !! name = groups w !! name
              \/ exists o instance0 mgr groupSyncer,
                   st !! name = Some o
                   /\ Get env req = inr instance0
                   /\ GetGroupSyncMgr env instance0 = inr mgr
                   /\ groupSyncer ∈ GroupSyncers mgr
                   /\ userv1.index (userv1.Labels o) SyncProvider
                      = Some (providerLabelOf (fst (SetDefaults mgr instance0))
                                groupSyncer)
                   /\ is_Some (userv1.index (userv1.Annotations o) SyncTimestamp)
                   /\ userv1.Name o = name) req w)
    with (out := fst (Reconcile req w)); [|by left|apply Reconcile_split].
  intros instance0 mgr s gs group st ocp now Hget Hmgr Hin _ _ _ Hst.
  destruct (decide (userv1.Name ocp = name)) as [Hname|Hname].
  - right. eexists _, instance0, mgr, s. subst name.
    rewrite lookup_insert_eq. repeat split; try done.
    + simpl. apply lookup_insert_eq.
    + simpl. rewrite lookup_insert_eq. by eexists.
  - by rewrite lookup_insert_ne.
Qed.

(** The object a step may write has the name of the provider's group, in a
    store keyed by name. *)
Lemma writable_name st providerLabel group ocpGroup :
  wellKeyed st ->
  writable st providerLabel group ocpGroup ->
  userv1.Name ocpGroup = userv1.Name group.
Proof.
  intros Hkeyed. unfold writable, lookupGroup; simpl.
  destruct (GetGroupFault env st (userv1.Name group)) as [err|].
  - by intros [_ ->].
  - destruct (st !! userv1.Name group) as [o|] eqn:Hlook.
    + intros [_ ->]. exact (Hkeyed _ _ Hlook).
    + by intros [_ ->].
Qed.

Lemma wellKeyed_write st providerLabel now group ocpGroup :
  wellKeyed st ->
  wellKeyed (<[userv1.Name ocpGroup := written ocpGroup providerLabel now group]> st).
Proof. intros Hkeyed. by apply map_Forall_insert_2. Qed.

(** X3: exclusive ownership over the whole pass.  In a store keyed by
    name, a Group whose ownership label is absent or is the tag of none of
    the providers of the manager is after the pass exactly what it was
    before, however the pass ends, provided that reads of its name do not
    answer not-found. *)
Theorem Reconcile_keeps_foreign_groups req w name o :
  wellKeyed (groups w) ->
  groups w !! name = Some o ->
  readsFound env name ->
  (forall instance0 mgr groupSyncer,
     Get env req = inr instance0 ->
     GetGroupSyncMgr env instance0 = inr mgr ->
     groupSyncer ∈ GroupSyncers mgr ->
     userv1.index (userv1.Labels o) SyncProvider
     <> Some (providerLabelOf (fst (SetDefaults mgr instance0)) groupSyncer)) ->
  groups (snd (Reconcile req w)) !! name = Some o.
Proof.
  intros Hkeyed Hlook Hreads Hforeign.
  apply (Reconcile_footprint (fun st => wellKeyed st /\ st !! name = Some o) req w)
    with (out := fst (Reconcile req w)); [|done|apply Reconcile_split].
  intros instance0 mgr s gs group st ocp now Hget Hmgr Hin _ _ Hok [Hk Hst].
  split; [by apply wellKeyed_write|].
  rewrite lookup_insert_ne; [exact Hst|].
  rewrite (writable_name _ _ _ _ Hk Hok). intros Hname.
  revert Hok. unfold writable, lookupGroup; simpl. rewrite Hname.
  destruct (GetGroupFault env st name) as [err|] eqn:Hfault.
  - intros [Hnf _]. by rewrite (Hreads _ _ Hfault) in Hnf.
  - rewrite Hst. intros [Hlabel _]. exact (Hforeign _ _ _ Hget Hmgr Hin Hlabel).
Qed.

Lemma elem_of_reported syncers groupSyncer gs group :
  groupSyncer ∈ syncers -> Sync groupSyncer = inr gs -> group ∈ gs ->
  userv1.Name group ∈ reported syncers.
Proof.
  intros Hin Hsync Hgroup. unfold reported.
  apply list_elem_of_In, in_concat.
  exists (List.map userv1.Name gs). split.
  - apply in_map_iff. exists groupSyncer. rewrite Hsync.
    split; [reflexivity|by apply list_elem_of_In].
  - apply in_map. by apply list_elem_of_In.
Qed.

(** X4: in a store keyed by name, a pass leaves every name that no
    provider reports as it was: an object there is neither changed nor
    removed, and none is created. *)
Theorem Reconcile_touches_only_reported_groups req w name :
  wellKeyed (groups w) ->
  (forall instance0 mgr,
     Get env req = inr instance0 ->
     GetGroupSyncMgr env instance0 = inr mgr ->
     name ∉ reported (GroupSyncers mgr)) ->
  groups (snd (Reconcile req w)) !! name = groups w !! name.
Proof.
  intros Hkeyed Hfree.
  apply (Reconcile_footprint
           (fun st => wellKeyed st /\ st !! name = groups w !! name) req w)
    with (out := fst (Reconcile req w)); [|done|apply Reconcile_split].
  intros instance0 mgr s gs group st ocp now Hget Hmgr Hin Hsync Hgroup Hok [Hk Hst].
  split; [by apply wellKeyed_write|].
  rewrite lookup_insert_ne; [exact Hst|].
  rewrite (writable_name _ _ _ _ Hk Hok). intros Hname.
  apply (Hfree _ _ Hget Hmgr). rewrite <- Hname.
  by apply (elem_of_reported _ s gs).
Qed.

(** X5: an error returned by Reconcile never comes with a requeue delay or
    a requeue flag: the result beside it is the empty one. *)
Theorem Reconcile_error_has_no_requeue req w res err :
  fst (Reconcile req w) = Returned res (Some err) ->
  res = emptyResult.
Proof.
  intros Hout.
  by apply (proj2 (Reconcile_footprint (fun _ => True) req w
                     ltac:(done) Logic.I _ _ (Reconcile_split req w)) res err).
Qed.

End StoreFacts.

(** ** The other paths of a pass *)

Section PathFacts.

Variables SyncProvider SyncTimestamp : string.
Variable env : Env.

Abbreviation Reconcile := (Reconcile SyncProvider SyncTimestamp env).
Abbreviation upsert := (upsert SyncProvider SyncTimestamp env).
Abbreviation syncProvider := (syncProvider SyncProvider SyncTimestamp env).
Abbreviation mirrored := (mirrored SyncProvider SyncTimestamp).
Abbreviation written := (written SyncProvider SyncTimestamp).
Abbreviation writable := (writable SyncProvider env).

(** *** Merge steps *)

Lemma target_writable instance providerLabel group ocpGroup w :
  writable (groups w) providerLabel group ocpGroup ->
  target SyncProvider env instance providerLabel group w
  = (inr (Some ocpGroup), after w [CallGetGroup (userv1.Name group)]).
Proof.
  rewrite target_eval. unfold writable.
  change (lookupGroup env (mkWorld (groups w) 0 []) (userv1.Name group))
    with (lookupGroup env w (userv1.Name group)).
  destruct (lookupGroup env w (userv1.Name group)) as [err|o].
  - by intros [-> ->].
  - intros [-> ->]. by rewrite String.eqb_refl.
Qed.

(** A step that may write and whose write succeeds. *)
Lemma upsert_writes instance providerLabel group ocpGroup n w :
  writable (groups w) providerLabel group ocpGroup ->
  CreateOrUpdateFault env (groups w)
    (written ocpGroup providerLabel (timeNow env (ticks w)) group) = None ->
  upsert instance providerLabel group n w
  = (inr (S n),
     mkWorld
       (<[userv1.Name ocpGroup :=
            written ocpGroup providerLabel (timeNow env (ticks w)) group]> (groups w))
       (S (ticks w))
       (trace w ++
        [CallGetGroup (userv1.Name group);
         CallCreateOrUpdateResource
           (written ocpGroup providerLabel (timeNow env (ticks w)) group)])).
Proof.
  intros Hok Hwrite.
  rewrite (upsert_after_target _ _ _ _ _ _ _ _ _ _
             (target_writable instance _ _ _ _ Hok)).
  by rewrite Hwrite.
Qed.

(** X6: a group that the cluster does not have is created: the object
    stored under its name has the provider's labels plus the ownership
    label, the provider's annotations plus the timestamp and the provider's
    members, and the update is counted. *)
Theorem upsert_creates_missing_group instance providerLabel group n w :
  GetGroupFault env (groups w) (userv1.Name group) = None ->
  groups w !! userv1.Name group = None ->
  CreateOrUpdateFault env (groups w)
    (mirrored providerLabel (timeNow env (ticks w)) group) = None ->
  upsert instance providerLabel group n w
  = (inr (S n),
     mkWorld
       (<[userv1.Name group := mirrored providerLabel (timeNow env (ticks w)) group]>
          (groups w))
       (S (ticks w))
       (trace w ++
        [CallGetGroup (userv1.Name group);
         CallCreateOrUpdateResource
           (mirrored providerLabel (timeNow env (ticks w)) group)])).
Proof.
  intros Hfault Hnone Hwrite.
  apply (upsert_writes instance providerLabel group (fresh group) n w); [|exact Hwrite].
  unfold writable, lookupGroup; simpl. by rewrite Hfault, Hnone.
Qed.

(** X7: merging the same group twice in a row writes the same object
    twice but for the timestamp: after the second step the store is what
    the first step made of it with the later time in the timestamp. *)
Theorem upsert_twice_changes_only_timestamp instance providerLabel group ocpGroup n w :
  (forall st, GetGroupFault env st (userv1.Name group) = None) ->
  (forall st obj, CreateOrUpdateFault env st obj = None) ->
  writable (groups w) providerLabel group ocpGroup ->
  userv1.Name ocpGroup = userv1.Name group ->
  exists w1 w2,
    upsert instance providerLabel group n w = (inr (S n), w1)
    /\ upsert instance providerLabel group (S n) w1 = (inr (S (S n)), w2)
    /\ groups w1
       = <[userv1.Name group := mirrored providerLabel (timeNow env (ticks w)) group]>
           (groups w)
    /\ groups w2
       = <[userv1.Name group :=
             mirrored providerLabel (timeNow env (S (ticks w))) group]> (groups w).
Proof.
  intros Hread Hwrite Hok Hname.
  do 2 eexists.
  split; [apply (upsert_writes _ _ _ ocpGroup); [exact Hok|apply Hwrite]|].
  rewrite Hname.
  change (written ocpGroup providerLabel (timeNow env (ticks w)) group)
    with (userv1.mkGroup (userv1.Name ocpGroup)
            (userv1.Labels (mirrored providerLabel (timeNow env (ticks w)) group))
            (userv1.Annotations (mirrored providerLabel (timeNow env (ticks w)) group))
            (userv1.Users group)).
  rewrite Hname.
  change (userv1.mkGroup (userv1.Name group) _ _ (userv1.Users group))
    with (mirrored providerLabel (timeNow env (ticks w)) group).
  split; [|split; [reflexivity|]].
  - apply (upsert_writes _ _ _
             (mirrored providerLabel (timeNow env (ticks w)) group));
      [|apply Hwrite].
    unfold writable, lookupGroup; simpl.
    rewrite Hread, lookup_insert_eq. split; [|reflexivity].
    simpl. apply lookup_insert_eq.
  - simpl. apply insert_insert_eq.
Qed.

(** *** Tags *)

Lemma append_inj_l (s a b : string) : s ++ a = s ++ b -> a = b.
Proof.
  induction s as [|c s IH]; intros H.
  - exact H.
  - change (String c (s ++ a) = String c (s ++ b)) in H.
    injection H as H. by apply IH.
Qed.

Lemma tag_inj (r1 p1 r2 p2 : string) :
  hasUnderscore r1 = false -> hasUnderscore r2 = false ->
  r1 ++ "_" ++ p1 = r2 ++ "_" ++ p2 -> r1 = r2 /\ p1 = p2.
Proof.
  revert r2. induction r1 as [|c r1 IH]; intros [|c2 r2] H1 H2 H.
  - change (String "_" p1 = String "_" p2) in H. by injection H as ->.
  - change (String "_" p1 = String c2 (r2 ++ "_" ++ p2)) in H.
    injection H as <- _. by simpl in H2.
  - change (String c (r1 ++ "_" ++ p1) = String "_" p2) in H.
    injection H as -> _. by simpl in H1.
  - change (String c (r1 ++ "_" ++ p1) = String c2 (r2 ++ "_" ++ p2)) in H.
    injection H as -> Hrest. simpl in H1, H2.
    apply orb_false_iff in H1 as [_ H1]. apply orb_false_iff in H2 as [_ H2].
    by destruct (IH r2 H1 H2 Hrest) as [-> ->].
Qed.


(** X8: the ownership tag tells providers apart.  Two providers of one
    resource have the same tag only when they have the same name, and when
    the names of two resources hold no underscore, the tags of their
    providers are equal only for the same resource name and the same
    provider name. *)
Theorem providerLabelOf_injective instance1 s1 instance2 s2 :
  providerLabelOf instance1 s1 = providerLabelOf instance2 s2 ->
  (v1alpha1.Name instance1 = v1alpha1.Name instance2 ->
   GetProviderName s1 = GetProviderName s2)
  /\ (hasUnderscore (v1alpha1.Name instance1) = false ->
      hasUnderscore (v1alpha1.Name instance2) = false ->
      v1alpha1.Name instance1 = v1alpha1.Name instance2
      /\ GetProviderName s1 = GetProviderName s2).
Proof.
  unfold providerLabelOf. intros Htag. split.
  - intros Hname. rewrite Hname in Htag.
    by apply append_inj_l, append_inj_l in Htag.
  - intros H1 H2. by apply tag_inj.
Qed.



(** *** Failures before the loop *)

(** X10: when the manager cannot be built, Reconcile goes through the error
    path with that error for the fetched instance: it emits the warning
    event GroupSyncError with the error's text, asks for the update of a
    status whose condition of type groupsync is the one of reason
    "synchronization error" with the error's text, logs and returns the
    error; defaulting, validation and the providers are not reached. *)
Theorem Reconcile_manager_failure req w instance err :
  Get env req = inr instance ->
  GetGroupSyncMgr env instance = inl err ->
  Reconcile req w
  = (Returned emptyResult (Some err),
     after w ([CallGet req; CallGetGroupSyncMgr] ++ errorCalls instance err))
  /\ errorCalls instance err
     = [CallEvent (v1alpha1.Name instance) "Warning" "GroupSyncError" (Error err);
        CallStatusUpdate (setCondition instance (errorCondition err));
        CallLog "unable to update status"]
  /\ status.GetCondition
       (v1alpha1.Conditions
          (v1alpha1.Status (setCondition instance (errorCondition err))))
       "groupsync"
     = Some (status.mkCondition "groupsync" status.ConditionTrue
               "synchronization error" (Error err))
  /\ v1alpha1.Name (setCondition instance (errorCondition err))
     = v1alpha1.Name instance
  /\ v1alpha1.Spec (setCondition instance (errorCondition err))
     = v1alpha1.Spec instance.
Proof.
  intros Hget Hmgr.
  split; [|split; [reflexivity|split; [|split; reflexivity]]].
  - unfold Reconcile, run, bind at 1, clientGet, bind at 1.
    rewrite record_after. unfold ret at 1. cbv beta iota. rewrite Hget.
    unfold bind at 1. rewrite record_after. cbv beta iota. rewrite Hmgr.
    by rewrite fail_after, !after_after.
  - apply (GetCondition_SetCondition _ (errorCondition err)).
Qed.

(** X11: when defaulting changed the spec and the update of the resource
    fails, Reconcile logs, goes through the error path with the update's
    error for the defaulted instance, and no provider is reached. *)
Theorem Reconcile_defaulting_update_failure req w instance0 mgr instance err :
  Get env req = inr instance0 ->
  GetGroupSyncMgr env instance0 = inr mgr ->
  SetDefaults mgr instance0 = (instance, true) ->
  Update env instance = Some err ->
  Reconcile req w
  = (Returned emptyResult (Some err),
     after w ([CallGet req; CallGetGroupSyncMgr; CallSetDefaults;
               CallUpdate instance; CallLog "unable to update instance"]
              ++ errorCalls instance err)).
Proof.
  intros Hget Hmgr Hdef Hupd.
  unfold Reconcile, run, bind at 1, clientGet, bind at 1.
  rewrite record_after. unfold ret at 1. cbv beta iota. rewrite Hget.
  unfold bind at 1. rewrite record_after. cbv beta iota. rewrite Hmgr.
  unfold bind at 1. rewrite record_after. cbv beta iota. rewrite Hdef.
  unfold bind at 1, clientUpdate, bind at 1. rewrite record_after.
  unfold ret at 1. cbv beta iota. rewrite Hupd.
  unfold bind at 1, log. rewrite record_after.
  by rewrite fail_after, !after_after.
Qed.

(** X12: when validation fails, Reconcile goes through the error path
    with that error and no provider is bound or synced. *)
Theorem Reconcile_validation_failure req w instance0 mgr instance err :
  Get env req = inr instance0 ->
  GetGroupSyncMgr env instance0 = inr mgr ->
  SetDefaults mgr instance0 = (instance, false) ->
  Validate mgr = Some err ->
  Reconcile req w
  = (Returned emptyResult (Some err),
     after w (prelude req ++ errorCalls instance err)).
Proof.
  intros Hget Hmgr Hdef Hval.
  unfold Reconcile, run, bind at 1, clientGet, bind at 1.
  rewrite record_after. unfold ret at 1. cbv beta iota. rewrite Hget.
  unfold bind at 1. rewrite record_after. cbv beta iota. rewrite Hmgr.
  unfold bind at 1. rewrite record_after. cbv beta iota. rewrite Hdef.
  unfold bind at 1. rewrite record_after. cbv beta iota. rewrite Hval.
  by rewrite fail_after, !after_after.
Qed.

(** *** A failing write *)

(** X13: when the write of a group fails, Reconcile logs, goes through the
    error path and returns the write's error; the groups merged before it
    in this pass stay written, and neither the groups after it nor the
    providers after this one are looked at. *)
Theorem Reconcile_aborts_on_write_failure
    req w instance0 mgr instance pre groupSyncer post w2
    gpre group gpost n w3 ocpGroup err :
  Get env req = inr instance0 ->
  GetGroupSyncMgr env instance0 = inr mgr ->
  SetDefaults mgr instance0 = (instance, false) ->
  Validate mgr = None ->
  GroupSyncers mgr = (pre ++ groupSyncer :: post)%list ->
  forEach pre (syncProvider instance) tt (after w (prelude req)) = (inr tt, w2) ->
  Bind groupSyncer = None ->
  Sync groupSyncer = inr (gpre ++ group :: gpost)%list ->
  forEach gpre (upsert instance (providerLabelOf instance groupSyncer)) 0%nat
    (after w2 (syncCalls groupSyncer)) = (inr n, w3) ->
  writable (groups w3) (providerLabelOf instance groupSyncer) group ocpGroup ->
  CreateOrUpdateFault env (groups w3)
    (written ocpGroup (providerLabelOf instance groupSyncer)
       (timeNow env (ticks w3)) group) = Some err ->
  Reconcile req w
  = (Returned emptyResult (Some err),
     after (mkWorld (groups w3) (S (ticks w3)) (trace w3))
       ([CallGetGroup (userv1.Name group);
         CallCreateOrUpdateResource
           (written ocpGroup (providerLabelOf instance groupSyncer)
              (timeNow env (ticks w3)) group);
         CallLog "Failed to Create or Update OpenShift Group"]
        ++ errorCalls instance err)).
Proof.
  intros Hget Hmgr Hdef Hval Hsyncers Hpre Hbind Hsync Hgpre Hok Hwrite.
  apply (Reconcile_returns_from_loop _ _ _ _ _ _ _ _ _ _ _ _ _ _
           Hget Hmgr Hdef Hval Hsyncers Hpre).
  rewrite (syncProvider_reaches_groups _ _ _ _ _ _ _ Hbind Hsync). unfold bind.
  erewrite forEach_returns; [reflexivity|exact Hgpre|].
  rewrite (upsert_after_target _ _ _ _ _ _ _ _ _ _
             (target_writable instance _ _ _ _ Hok)).
  by rewrite Hwrite.
Qed.

(** *** The success path *)

(** The instance whose status Reconcile stores after the loop. *)
Lemma finish_eval instance w :
  finish env instance w
  = match StatusUpdate env
            (setCondition
               (v1alpha1.withLastSyncSuccessTime instance (clockNow env (ticks w)))
               successCondition) with
    | inl err =>
        (inl (Returned emptyResult (Some err)),
         mkWorld (groups w) (S (ticks w))
           (trace w ++
            [CallStatusUpdate
               (setCondition
                  (v1alpha1.withLastSyncSuccessTime instance (clockNow env (ticks w)))
                  successCondition);
             CallLog "unable to update status"]))
    | inr stored =>
        if String.eqb (v1alpha1.Schedule (v1alpha1.Spec stored)) ""
        then (inl (Returned emptyResult None),
              mkWorld (groups w) (S (ticks w))
                (trace w ++
                 [CallStatusUpdate
                    (setCondition
                       (v1alpha1.withLastSyncSuccessTime instance
                          (clockNow env (ticks w)))
                       successCondition)]))
        else
          (inl match ParseStandard env (v1alpha1.Schedule (v1alpha1.Spec stored)) with
               | inl _ => Panicked
               | inr sched =>
                   Returned
                     (mkResult false
                        (Sub (Next sched (timeNow env (S (ticks w))))
                             (timeNow env (S (ticks w)))))
                     None
               end,
           mkWorld (groups w) (S (S (ticks w)))
             (trace w ++
              [CallStatusUpdate
                 (setCondition
                    (v1alpha1.withLastSyncSuccessTime instance
                       (clockNow env (ticks w)))
                    successCondition);
               CallParseStandard (v1alpha1.Schedule (v1alpha1.Spec stored))]))
    end.
Proof.
  unfold finish, bind at 1, tick; simpl.
  unfold bind at 1, call, manageSuccess, run, bind at 1, clientStatusUpdate,
    bind at 1, record, ret; simpl.
  destruct (StatusUpdate env _) as [err|stored]; simpl.
  - by rewrite <- app_assoc.
  - unfold return_; simpl.
    destruct (String.eqb _ ""); simpl; [reflexivity|].
    unfold bind, record, tick; simpl.
    destruct (ParseStandard env _); simpl; by rewrite <- app_assoc.
Qed.

Lemma Reconcile_finishes req w instance0 mgr instance w2 :
  Get env req = inr instance0 ->
  GetGroupSyncMgr env instance0 = inr mgr ->
  SetDefaults mgr instance0 = (instance, false) ->
  Validate mgr = None ->
  forEach (GroupSyncers mgr) (syncProvider instance) tt (after w (prelude req))
  = (inr tt, w2) ->
  Reconcile req w = run (finish env instance) w2.
Proof.
  intros Hget Hmgr Hdef Hval Hloop.
  rewrite (Reconcile_reaches_loop _ _ _ _ _ _ _ _ Hget Hmgr Hdef Hval).
  unfold run, bind at 1. by rewrite Hloop.
Qed.

(** X14: a pass whose providers all synced and whose resource has no
    schedule asks for the update of a status whose last success time is the
    reading of the clock and whose condition of type groupsync is the one
    of reason "synchronization succeeded", the name and the spec being
    those of the instance, and returns no error and no requeue delay; the
    cron parser is not asked. *)
Theorem Reconcile_succeeds_without_schedule req w instance0 mgr instance w2 stored :
  Get env req = inr instance0 ->
  GetGroupSyncMgr env instance0 = inr mgr ->
  SetDefaults mgr instance0 = (instance, false) ->
  Validate mgr = None ->
  forEach (GroupSyncers mgr) (syncProvider instance) tt (after w (prelude req))
  = (inr tt, w2) ->
  StatusUpdate env
    (setCondition
       (v1alpha1.withLastSyncSuccessTime instance (clockNow env (ticks w2)))
       successCondition)
  = inr stored ->
  v1alpha1.Schedule (v1alpha1.Spec stored) = "" ->
  Reconcile req w
  = (Returned emptyResult None,
     mkWorld (groups w2) (S (ticks w2))
       (trace w2 ++
        [CallStatusUpdate
           (setCondition
              (v1alpha1.withLastSyncSuccessTime instance (clockNow env (ticks w2)))
              successCondition)]))
  /\ v1alpha1.LastSyncSuccessTime
       (v1alpha1.Status
          (setCondition
             (v1alpha1.withLastSyncSuccessTime instance (clockNow env (ticks w2)))
             successCondition))
     = Some (clockNow env (ticks w2))
  /\ status.GetCondition
       (v1alpha1.Conditions
          (v1alpha1.Status
             (setCondition
                (v1alpha1.withLastSyncSuccessTime instance (clockNow env (ticks w2)))
                successCondition)))
       "groupsync"
     = Some (status.mkCondition "groupsync" status.ConditionTrue
               "synchronization succeeded" "group synchronization has succeeded")
  /\ v1alpha1.Name
       (setCondition
          (v1alpha1.withLastSyncSuccessTime instance (clockNow env (ticks w2)))
          successCondition)
     = v1alpha1.Name instance
  /\ v1alpha1.Spec
       (setCondition
          (v1alpha1.withLastSyncSuccessTime instance (clockNow env (ticks w2)))
          successCondition)
     = v1alpha1.Spec instance.
Proof.
  intros Hget Hmgr Hdef Hval Hloop Hstore Hsched.
  split; [|split; [reflexivity|split; [|split; reflexivity]]].
  - rewrite (Reconcile_finishes _ _ _ _ _ _ Hget Hmgr Hdef Hval Hloop).
    unfold run. by rewrite finish_eval, Hstore, Hsched.
  - apply (GetCondition_SetCondition _ successCondition).
Qed.

(** X15: with a schedule that parses, the pass asks to be run again after
    the time from now to the next fire time of the schedule, now being a
    reading of the wall clock taken after the parse. *)
Theorem Reconcile_requeues_at_next_fire req w instance0 mgr instance w2 stored sched :
  Get env req = inr instance0 ->
  GetGroupSyncMgr env instance0 = inr mgr ->
  SetDefaults mgr instance0 = (instance, false) ->
  Validate mgr = None ->
  forEach (GroupSyncers mgr) (syncProvider instance) tt (after w (prelude req))
  = (inr tt, w2) ->
  StatusUpdate env
    (setCondition
       (v1alpha1.withLastSyncSuccessTime instance (clockNow env (ticks w2)))
       successCondition)
  = inr stored ->
  v1alpha1.Schedule (v1alpha1.Spec stored) <> "" ->
  ParseStandard env (v1alpha1.Schedule (v1alpha1.Spec stored)) = inr sched ->
  fst (Reconcile req w)
  = Returned
      (mkResult false
         (Sub (Next sched (timeNow env (S (ticks w2)))) (timeNow env (S (ticks w2)))))
      None.
Proof.
  intros Hget Hmgr Hdef Hval Hloop Hstore Hsched Hparse.
  rewrite (Reconcile_finishes _ _ _ _ _ _ Hget Hmgr Hdef Hval Hloop).
  unfold run. rewrite finish_eval, Hstore, Hparse.
  by destruct (String.eqb_spec (v1alpha1.Schedule (v1alpha1.Spec stored)) "").
Qed.

(** X16: when the status update of the success path fails, Reconcile
    returns that error with no requeue delay, whatever the schedule: the
    cron parser is not asked, no warning event is emitted, and what the
    providers wrote stays. *)
Theorem Reconcile_status_failure_after_sync req w instance0 mgr instance w2 err :
  Get env req = inr instance0 ->
  GetGroupSyncMgr env instance0 = inr mgr ->
  SetDefaults mgr instance0 = (instance, false) ->
  Validate mgr = None ->
  forEach (GroupSyncers mgr) (syncProvider instance) tt (after w (prelude req))
  = (inr tt, w2) ->
  StatusUpdate env
    (setCondition
       (v1alpha1.withLastSyncSuccessTime instance (clockNow env (ticks w2)))
       successCondition)
  = inl err ->
  Reconcile req w
  = (Returned emptyResult (Some err),
     mkWorld (groups w2) (S (ticks w2))
       (trace w2 ++
        [CallStatusUpdate
           (setCondition
              (v1alpha1.withLastSyncSuccessTime instance (clockNow env (ticks w2)))
              successCondition);
         CallLog "unable to update status"])).
Proof.
  intros Hget Hmgr Hdef Hval Hloop Hstore.
  rewrite (Reconcile_finishes _ _ _ _ _ _ Hget Hmgr Hdef Hval Hloop).
  unfold run. by rewrite finish_eval, Hstore.
Qed.

End PathFacts.

(** ** Conditions *)




(** ** The width of a timestamp *)

Lemma length_append (a b : string) :
  String.length (a ++ b) = (String.length a + String.length b)%nat.
Proof.
  induction a as [|c a IH]; [reflexivity|].
  change (S (String.length (a ++ b)) = S (String.length a + String.length b)).
  by rewrite IH.
Qed.

Lemma length_zeros k : String.length (Fmt.zeros k) = k.
Proof. induction k as [|k IH]; simpl; [reflexivity|by rewrite IH]. Qed.

Lemma length_padLeft0 w s :
  (String.length s <= w)%nat -> String.length (Fmt.padLeft0 w s) = w.
Proof.
  intros Hs. unfold Fmt.padLeft0. rewrite length_append, length_zeros. lia.
Qed.

Lemma length_string_of_uint u :
  String.length (NilEmpty.string_of_uint u) = Decimal.nb_digits u.
Proof. induction u; simpl; by rewrite ?IHu. Qed.

(** The digits of a number, counted on its decimal form with the least
    significant digit first. *)
Lemma length_digits n :
  (1 <= Decimal.nb_digits (DecimalPos.Unsigned.to_lu n))%nat ->
  String.length (NilZero.string_of_uint (N.to_uint n))
  = Decimal.nb_digits (DecimalPos.Unsigned.to_lu n).
Proof.
  intros Hone.
  assert (Hrev : N.to_uint n = Decimal.rev (DecimalPos.Unsigned.to_lu n))
    by (by destruct n).
  rewrite Hrev. rewrite <- (DecimalFacts.nb_digits_rev (DecimalPos.Unsigned.to_lu n)) in *.
  destruct (Decimal.rev (DecimalPos.Unsigned.to_lu n)) eqn:E;
    [simpl in Hone; lia|..];
    unfold NilZero.string_of_uint; by rewrite length_string_of_uint.
Qed.

Lemma countedUp_spec check k :
  forall m, countedUp check k (DecimalPos.Unsigned.to_lu m) = true ->
  forall i, (i < k)%nat ->
  check (DecimalPos.Unsigned.to_lu (m + N.of_nat i)%N) = true.
Proof.
  induction k as [|k IH]; intros m Hall i Hi; [lia|].
  simpl in Hall. apply andb_true_iff in Hall as [Hm Hrest].
  destruct i as [|i].
  - by rewrite N.add_0_r.
  - rewrite <- DecimalPos.Unsigned.to_lu_succ in Hrest.
    replace (m + N.of_nat (S i))%N with (N.succ m + N.of_nat i)%N by lia.
    apply IH; [exact Hrest|lia].
Qed.

(** A number below a bound that was counted up to has as many digits as
    the count allows. *)
Lemma digits_fit w (bound : Z) n :
  countedUp (fits w) (Z.to_nat bound) (DecimalPos.Unsigned.to_lu 0) = true ->
  0 <= n < bound ->
  (String.length (Fmt.digits n) <= w)%nat.
Proof.
  intros Hall Hn.
  pose proof (countedUp_spec _ _ _ Hall (Z.to_nat n) ltac:(lia)) as Hfit.
  replace (0 + N.of_nat (Z.to_nat n))%N with (Z.to_N n) in Hfit by lia.
  unfold fits in Hfit. apply andb_true_iff in Hfit as [Hone Hw].
  apply Nat.leb_le in Hone, Hw.
  unfold Fmt.digits. by rewrite length_digits.
Qed.

Lemma d0_width_2 n : 0 <= n < 100 -> String.length (Fmt.d0 2 n) = 2%nat.
Proof.
  intros Hn. unfold Fmt.d0. destruct (Z.ltb_spec n 0); [lia|].
  apply length_padLeft0, (digits_fit 2 100); [by vm_compute|done].
Qed.

Lemma d0_width_3 n : -100 < n < 1000 -> String.length (Fmt.d0 3 n) = 3%nat.
Proof.
  intros Hn. unfold Fmt.d0. destruct (Z.ltb_spec n 0).
  - change (S (String.length (Fmt.padLeft0 2 (Fmt.digits (- n)))) = 3%nat).
    f_equal. apply length_padLeft0, (digits_fit 2 100); [by vm_compute|lia].
  - apply length_padLeft0, (digits_fit 3 1000); [by vm_compute|lia].
Qed.

Lemma d0_width_4 n : 0 <= n < 10000 -> String.length (Fmt.d0 4 n) = 4%nat.
Proof.
  intros Hn. unfold Fmt.d0. destruct (Z.ltb_spec n 0); [lia|].
  apply length_padLeft0, (digits_fit 4 10000); [by vm_compute|done].
Qed.

(** The whole hours of an offset that is not negative. *)
Lemma quot_hours_bound a k : 0 <= a < 3600 * k -> 0 <= Z.quot a 3600 < k.
Proof.
  intros Ha.
  pose proof (Z.quot_rem' a 3600) as Hqr.
  pose proof (Z.rem_bound_pos a 3600 (proj1 Ha) eq_refl) as Hr.
  revert Hqr Hr. generalize (Z.quot a 3600) (Z.rem a 3600). intros q r Hqr Hr. lia.
Qed.

(** X18: for a time whose year has at most four digits, whose other fields
    have at most two and whose zone is less than a hundred hours from UTC,
    the timestamp has a fixed width: 20 characters in the zone named UTC
    and 24 in any other. *)
Theorem ISO8601_width t :
  0 <= Year t < 10000 ->
  0 <= Month t < 100 -> 0 <= Day t < 100 ->
  0 <= Hour t < 100 -> 0 <= Minute t < 100 -> 0 <= Second t < 100 ->
  -360000 < ZoneOffset t < 360000 ->
  String.length (ISO8601 t) = if String.eqb (ZoneName t) "UTC" then 20%nat else 24%nat.
Proof.
  intros Hy Hmo Hd Hh Hmi Hs Hz.
  assert (Hcivil : String.length (civil t) = 19%nat).
  { unfold civil. rewrite !length_append.
    rewrite d0_width_4, !d0_width_2 by done. reflexivity. }
  unfold ISO8601, tzSuffix. rewrite length_append, Hcivil.
  destruct (String.eqb (ZoneName t) "UTC"); [reflexivity|].
  rewrite length_append, d0_width_3; [reflexivity|].
  destruct (Z_le_gt_dec 0 (ZoneOffset t)) as [Hpos|Hneg].
  - pose proof (quot_hours_bound (ZoneOffset t) 100 ltac:(lia)). lia.
  - replace (ZoneOffset t) with (- (- ZoneOffset t)) by lia.
    rewrite Z.quot_opp_l by lia.
    pose proof (quot_hours_bound (- ZoneOffset t) 100 ltac:(lia)). lia.
Qed.

(** X19: a zone that is not named UTC and is less than an hour from UTC,
    on either side, gets the suffix of offset zero, "00000": the sign of
    the offset is lost with its minutes. *)
Theorem ISO8601_sub_hour_offset t :
  ZoneName t <> "UTC" ->
  -3600 < ZoneOffset t < 3600 ->
  ISO8601 t = civil t ++ "00000".
Proof.
  intros Hzone Hoff. unfold ISO8601. rewrite tzSuffix_named by done.
  assert (Hq : Z.quot (ZoneOffset t) 3600 = 0).
  { destruct (Z_le_gt_dec 0 (ZoneOffset t)).
    - apply Z.quot_small. lia.
    - replace (ZoneOffset t) with (- (- ZoneOffset t)) by lia.
      rewrite Z.quot_opp_l by lia. rewrite Z.quot_small; lia. }
  by rewrite Hq.
Qed.

(** ** The statements at the example deployment *)

Import Example.

Lemma Reconcile_fetch_failure_witness :
  Reconcile SyncProvider SyncTimestamp (env (inl gone) false None "" false)
    "team-sync" world
  = (Returned emptyResult None, after world [CallGet "team-sync"])
  /\ Reconcile SyncProvider SyncTimestamp (env (inl unavailable) false None "" false)
       "team-sync" world
     = (Returned emptyResult (Some unavailable), after world [CallGet "team-sync"]).
Proof.
  split.
  - apply (Reconcile_fetch_failure SyncProvider SyncTimestamp
             (env (inl gone) false None "" false) "team-sync" world gone).
    reflexivity.
  - apply (Reconcile_fetch_failure SyncProvider SyncTimestamp
             (env (inl unavailable) false None "" false) "team-sync" world
             unavailable).
    reflexivity.
Defined.

Lemma Reconcile_defaulting_short_circuit_witness :
  Reconcile SyncProvider SyncTimestamp
    (env (inr (instance "")) true None "" false) "team-sync" world
  = (Returned emptyResult None,
     after world [CallGet "team-sync"; CallGetGroupSyncMgr; CallSetDefaults;
                  CallUpdate (instance "")]).
Proof.
  apply (Reconcile_defaulting_short_circuit SyncProvider SyncTimestamp
           (env (inr (instance "")) true None "" false) "team-sync" world
           (instance "") (mgr true None) (instance ""));
    reflexivity.
Defined.

(** The status update fails, and the error returned is still the one
    handed in. *)
Lemma manageError_returns_original_error_witness :
  StatusUpdate (env (inr (instance "")) false None "" true)
    (setCondition (instance "") (errorCondition refused))
  = inl unavailable
  /\ manageError (env (inr (instance "")) false None "" true)
       (instance "") refused world
     = ((emptyResult, Some refused), after world (errorCalls (instance "") refused)).
Proof.
  split; [reflexivity|].
  apply (manageError_returns_original_error
           (env (inr (instance "")) false None "" true) (instance "") refused world).
  vm_compute. lia.
Defined.

Lemma upsert_skips_foreign_group_witness :
  upsert SyncProvider SyncTimestamp (env (inr (instance "")) false None "" false)
    (instance "") (providerLabelOf (instance "") ldap) ops 1 devsMerged
  = (inr 1%nat, after devsMerged (skipCalls ops))
  /\ groups (after devsMerged (skipCalls ops)) !! "ops" = Some opsBefore.
Proof.
  pose proof (upsert_skips_foreign_group SyncProvider SyncTimestamp
                (env (inr (instance "")) false None "" false)
                (instance "") ldap ops opsBefore 1 devsMerged []) as H.
  split; apply H; try reflexivity; vm_compute; discriminate.
Defined.

Lemma upsert_overwrites_owned_group_witness :
  upsert SyncProvider SyncTimestamp (env (inr (instance "")) false None "" false)
    (instance "") (providerLabelOf (instance "") ldap) devs 0
    (after world (prelude "team-sync" ++ syncCalls ldap))
  = (inr 1%nat, devsMerged)
  /\ groups devsMerged !! "devs" = Some devsAfter
  /\ userv1.index (userv1.Labels devsAfter) "foo" = None.
Proof.
  split; [|split; reflexivity].
  apply (upsert_overwrites_owned_group SyncProvider SyncTimestamp
           (env (inr (instance "")) false None "" false)
           (instance "") ldap devs devsBefore 0
           (after world (prelude "team-sync" ++ syncCalls ldap)));
    reflexivity.
Defined.

(** The second of three providers fails at Bind: the first one's write of
    [devs] stays, the third is not asked anything. *)
Lemma Reconcile_aborts_on_provider_failure_witness :
  Reconcile SyncProvider SyncTimestamp
    (env (inr (instance "")) false (Some refused) "" false) "team-sync" world
  = (Returned emptyResult (Some refused),
     after ldapDone
       (failedCalls (github (Some refused)) ++ errorCalls (instance "") refused))
  /\ groups ldapDone !! "devs" = Some devsAfter.
Proof.
  split; [|reflexivity].
  apply (Reconcile_aborts_on_provider_failure SyncProvider SyncTimestamp
           (env (inr (instance "")) false (Some refused) "" false)
           "team-sync" world (instance "") (mgr false (Some refused)) (instance "")
           [ldap] (github (Some refused)) [okta] ldapDone refused);
    try reflexivity.
  left. reflexivity.
Defined.

(** Reading [ops] fails with a conflict after [devs] was merged. *)
Lemma Reconcile_aborts_on_group_lookup_failure_witness :
  Reconcile SyncProvider SyncTimestamp
    (env (inr (instance "")) false None "ops" false) "team-sync" world
  = (Returned emptyResult (Some conflict),
     after devsMerged (CallGetGroup "ops" :: errorCalls (instance "") conflict))
  /\ errorCalls (instance "") conflict
     = [CallEvent "team-sync" "Warning" "GroupSyncError" "the object has been modified";
        CallStatusUpdate (setCondition (instance "") (errorCondition conflict));
        CallLog "unable to update status"]
  /\ status.GetCondition
       (v1alpha1.Conditions
          (v1alpha1.Status (setCondition (instance "") (errorCondition conflict))))
       "groupsync"
     = Some (status.mkCondition "groupsync" status.ConditionTrue
               "synchronization error" "the object has been modified")
  /\ status.GetCondition (v1alpha1.Conditions (v1alpha1.Status (instance "")))
       "groupsync"
     = Some succeeded.
Proof.
  destruct (Reconcile_aborts_on_group_lookup_failure SyncProvider SyncTimestamp
              (env (inr (instance "")) false None "ops" false)
              "team-sync" world (instance "") (mgr false None) (instance "")
              [] ldap [github None; okta] (after world (prelude "team-sync"))
              [devs] ops [] 1 devsMerged conflict
              eq_refl eq_refl eq_refl eq_refl eq_refl eq_refl eq_refl eq_refl
              eq_refl eq_refl eq_refl)
    as (Hrun & _ & Hcalls & Hcondition & _).
  exact (conj Hrun (conj Hcalls (conj Hcondition eq_refl))).
Defined.

(** All three providers sync, the success is stored, and the schedule
    "every day" does not parse. *)
Lemma Reconcile_panics_on_malformed_schedule_witness :
  fst (Reconcile SyncProvider SyncTimestamp
         (env (inr (instance "every day")) false None "" false) "team-sync" world)
  = Panicked.
Proof.
  apply (Reconcile_panics_on_malformed_schedule SyncProvider SyncTimestamp
           (env (inr (instance "every day")) false None "" false)
           "team-sync" world (instance "every day") (mgr false None)
           (instance "every day") allDone
           (setCondition
              (v1alpha1.withLastSyncSuccessTime (instance "every day") utc)
              successCondition)
           badSpec);
    try reflexivity.
  discriminate.
Defined.

Lemma ISO8601_suffix_by_zone_name_witness :
  ISO8601 utc = civil utc ++ "Z"
  /\ ISO8601 ist = civil ist ++ "005" ++ "00"
  /\ ISO8601 gmt = civil gmt ++ "00000"
  /\ ISO8601 ist = ISO8601 plus5.
Proof.
  assert (Hist : ZoneName ist <> "UTC") by discriminate.
  assert (Hgmt : ZoneName gmt <> "UTC") by discriminate.
  assert (Hutc : ZoneName utc = "UTC") by reflexivity.
  destruct (ISO8601_suffix_by_zone_name ist utc Hist Hutc) as (Hz & Hhours & _ & Hcut).
  destruct (ISO8601_suffix_by_zone_name gmt utc Hgmt Hutc) as (_ & _ & Hzero & _).
  exact (conj Hz (conj Hhours (conj Hzero Hcut))).
Defined.

(** ** The further statements at the example deployment *)

Import Faulty.

Lemma cluster_wellKeyed : wellKeyed cluster.
Proof.
  apply map_Forall_insert_2; [reflexivity|].
  apply map_Forall_singleton. reflexivity.
Defined.

Lemma Reconcile_never_deletes_groups_witness :
  is_Some (groups (snd (Reconcile SyncProvider SyncTimestamp healthy "team-sync" world))
             !! "ops").
Proof.
  apply (Reconcile_never_deletes_groups SyncProvider SyncTimestamp healthy
           "team-sync" world "ops").
  exists opsBefore. reflexivity.
Defined.

(** [ops] belongs to another resource and is untouched by the pass. *)
Lemma Reconcile_keeps_foreign_groups_witness :
  groups (snd (Reconcile SyncProvider SyncTimestamp healthy "team-sync" world)) !! "ops"
  = Some opsBefore.
Proof.
  apply (Reconcile_keeps_foreign_groups SyncProvider SyncTimestamp healthy
           "team-sync" world "ops" opsBefore).
  - exact cluster_wellKeyed.
  - reflexivity.
  - intros st err. simpl. discriminate.
  - intros instance0 mgr0 s Hget Hmgr Hin.
    injection Hget as <-. injection Hmgr as <-.
    apply list_elem_of_In in Hin. simpl in Hin.
    destruct Hin as [<-|[<-|[<-|[]]]]; vm_compute; discriminate.
Defined.

(** [admins] is reported by no provider and is untouched by the pass. *)
Lemma Reconcile_touches_only_reported_groups_witness :
  groups (snd (Reconcile SyncProvider SyncTimestamp healthy "team-sync" adminsWorld))
    !! "admins"
  = Some admins.
Proof.
  apply (Reconcile_touches_only_reported_groups SyncProvider SyncTimestamp healthy
           "team-sync" adminsWorld "admins").
  - apply map_Forall_insert_2; [reflexivity|exact cluster_wellKeyed].
  - intros instance0 mgr0 Hget Hmgr.
    injection Hget as <-. injection Hmgr as <-.
    rewrite list_elem_of_In. simpl.
    intros [H|[H|[H|[H|[]]]]]; discriminate.
Defined.

Lemma Reconcile_error_has_no_requeue_witness :
  fst (Reconcile SyncProvider SyncTimestamp
         (env (inr (instance "* * * * *")) false (Some refused) "" false)
         "team-sync" world)
  = Returned emptyResult (Some refused)
  /\ emptyResult = emptyResult.
Proof.
  split; [reflexivity|].
  apply (Reconcile_error_has_no_requeue SyncProvider SyncTimestamp
           (env (inr (instance "* * * * *")) false (Some refused) "" false)
           "team-sync" world emptyResult refused).
  reflexivity.
Defined.

(** The okta provider creates [qa]. *)
Lemma upsert_creates_missing_group_witness :
  upsert SyncProvider SyncTimestamp healthy (instance "")
    (providerLabelOf (instance "") okta) qa 0 world
  = (inr 1%nat,
     mkWorld (<["qa" := qaAfter]> cluster) 1
       [CallGetGroup "qa"; CallCreateOrUpdateResource qaAfter]).
Proof.
  apply (upsert_creates_missing_group SyncProvider SyncTimestamp healthy
           (instance "") (providerLabelOf (instance "") okta) qa 0 world);
    reflexivity.
Defined.

Lemma upsert_twice_changes_only_timestamp_witness :
  exists w1 w2,
    upsert SyncProvider SyncTimestamp healthy (instance "")
      (providerLabelOf (instance "") ldap) devs 0 world = (inr 1%nat, w1)
    /\ upsert SyncProvider SyncTimestamp healthy (instance "")
         (providerLabelOf (instance "") ldap) devs 1 w1 = (inr 2%nat, w2)
    /\ groups w1
       = <["devs" := mirrored SyncProvider SyncTimestamp
                       (providerLabelOf (instance "") ldap) (timeNow healthy 0) devs]>
           cluster
    /\ groups w2
       = <["devs" := mirrored SyncProvider SyncTimestamp
                       (providerLabelOf (instance "") ldap) (timeNow healthy 1) devs]>
           cluster.
Proof.
  apply (upsert_twice_changes_only_timestamp SyncProvider SyncTimestamp healthy
           (instance "") (providerLabelOf (instance "") ldap) devs devsBefore 0 world).
  - intros st. reflexivity.
  - intros st obj. reflexivity.
  - split; reflexivity.
  - reflexivity.
Defined.

Lemma providerLabelOf_injective_witness :
  providerLabelOf (instance "") ldap = providerLabelOf (instance "* * * * *") ldap
  /\ v1alpha1.Name (instance "") = v1alpha1.Name (instance "* * * * *")
  /\ GetProviderName ldap = GetProviderName ldap.
Proof.
  split; [reflexivity|].
  apply (providerLabelOf_injective (instance "") ldap (instance "* * * * *") ldap);
    reflexivity.
Defined.


Lemma Reconcile_manager_failure_witness :
  Reconcile SyncProvider SyncTimestamp managerDown "team-sync" world
  = (Returned emptyResult (Some badConfig),
     after world ([CallGet "team-sync"; CallGetGroupSyncMgr]
                  ++ errorCalls (instance "") badConfig))
  /\ status.GetCondition
       (v1alpha1.Conditions
          (v1alpha1.Status (setCondition (instance "") (errorCondition badConfig))))
       "groupsync"
     = Some (status.mkCondition "groupsync" status.ConditionTrue
               "synchronization error" "no provider type configured")
  /\ status.GetCondition (v1alpha1.Conditions (v1alpha1.Status (instance "")))
       "groupsync"
     = Some succeeded.
Proof.
  destruct (Reconcile_manager_failure SyncProvider SyncTimestamp managerDown
              "team-sync" world (instance "") badConfig eq_refl eq_refl)
    as (Hrun & _ & Hcondition & _).
  exact (conj Hrun (conj Hcondition eq_refl)).
Defined.

Lemma Reconcile_defaulting_update_failure_witness :
  Reconcile SyncProvider SyncTimestamp updateDown "team-sync" world
  = (Returned emptyResult (Some conflict),
     after world ([CallGet "team-sync"; CallGetGroupSyncMgr; CallSetDefaults;
                   CallUpdate (instance ""); CallLog "unable to update instance"]
                  ++ errorCalls (instance "") conflict)).
Proof.
  apply (Reconcile_defaulting_update_failure SyncProvider SyncTimestamp updateDown
           "team-sync" world (instance "") (mgr true None) (instance "") conflict);
    reflexivity.
Defined.

Lemma Reconcile_validation_failure_witness :
  Reconcile SyncProvider SyncTimestamp invalidEnv "team-sync" world
  = (Returned emptyResult (Some invalid),
     after world (prelude "team-sync" ++ errorCalls (instance "") invalid)).
Proof.
  apply (Reconcile_validation_failure SyncProvider SyncTimestamp invalidEnv
           "team-sync" world (instance "") invalidMgr (instance "") invalid);
    reflexivity.
Defined.

(** The write of [ops] fails after [devs] was merged: [devs] stays merged
    and [ops] stays as it was. *)
Lemma Reconcile_aborts_on_write_failure_witness :
  Reconcile SyncProvider SyncTimestamp writeDown "team-sync" ownedWorld
  = (Returned emptyResult (Some conflict),
     after (mkWorld (groups ownedDevsMerged) 2 (trace ownedDevsMerged))
       ([CallGetGroup "ops"; CallCreateOrUpdateResource opsAfter;
         CallLog "Failed to Create or Update OpenShift Group"]
        ++ errorCalls (instance "") conflict))
  /\ groups ownedDevsMerged !! "devs" = Some devsAfter
  /\ groups ownedDevsMerged !! "ops" = Some opsOwned.
Proof.
  split; [|split; reflexivity].
  apply (Reconcile_aborts_on_write_failure SyncProvider SyncTimestamp writeDown
           "team-sync" ownedWorld (instance "") (mgr false None) (instance "")
           [] ldap [github None; okta] (after ownedWorld (prelude "team-sync"))
           [devs] ops [] 1 ownedDevsMerged opsOwned conflict);
    try reflexivity.
  split; reflexivity.
Defined.

Lemma Reconcile_succeeds_without_schedule_witness :
  Reconcile SyncProvider SyncTimestamp (env (inr failedBefore) false None "" false)
    "team-sync" world
  = (Returned emptyResult None,
     mkWorld (groups allDone) 3
       (trace allDone ++
        [CallStatusUpdate
           (setCondition (v1alpha1.withLastSyncSuccessTime failedBefore utc)
              successCondition)]))
  /\ v1alpha1.Status
       (setCondition (v1alpha1.withLastSyncSuccessTime failedBefore utc)
          successCondition)
     = v1alpha1.mkStatus
         [status.mkCondition "groupsync" status.ConditionTrue
            "synchronization succeeded" "group synchronization has succeeded"]
         (Some utc)
  /\ v1alpha1.LastSyncSuccessTime (v1alpha1.Status failedBefore) = None.
Proof.
  destruct (Reconcile_succeeds_without_schedule SyncProvider SyncTimestamp
              (env (inr failedBefore) false None "" false)
              "team-sync" world failedBefore (mgr false None) failedBefore allDone
              (setCondition (v1alpha1.withLastSyncSuccessTime failedBefore utc)
                 successCondition)
              eq_refl eq_refl eq_refl eq_refl eq_refl eq_refl eq_refl)
    as (Hrun & Hstamp & Hcondition & _).
  split; [exact Hrun|]. split; reflexivity.
Defined.

(** Every minute, at 03:04:05: in 55 seconds. *)
Lemma Reconcile_requeues_at_next_fire_witness :
  fst (Reconcile SyncProvider SyncTimestamp
         (env (inr (instance "* * * * *")) false None "" false) "team-sync" world)
  = Returned (mkResult false (Sub (Next everyMinute utc) utc)) None
  /\ Sub (Next everyMinute utc) utc = 55000000000.
Proof.
  split; [|reflexivity].
  apply (Reconcile_requeues_at_next_fire SyncProvider SyncTimestamp
           (env (inr (instance "* * * * *")) false None "" false)
           "team-sync" world (instance "* * * * *") (mgr false None)
           (instance "* * * * *") allDone
           (setCondition
              (v1alpha1.withLastSyncSuccessTime (instance "* * * * *") utc)
              successCondition)
           everyMinute);
    try reflexivity.
  discriminate.
Defined.

Lemma Reconcile_status_failure_after_sync_witness :
  Reconcile SyncProvider SyncTimestamp
    (env (inr (instance "* * * * *")) false None "" true) "team-sync" world
  = (Returned emptyResult (Some unavailable),
     mkWorld (groups allDone) 3
       (trace allDone ++
        [CallStatusUpdate
           (setCondition
              (v1alpha1.withLastSyncSuccessTime (instance "* * * * *") utc)
              successCondition);
         CallLog "unable to update status"])).
Proof.
  apply (Reconcile_status_failure_after_sync SyncProvider SyncTimestamp
           (env (inr (instance "* * * * *")) false None "" true)
           "team-sync" world (instance "* * * * *") (mgr false None)
           (instance "* * * * *") allDone unavailable);
    reflexivity.
Defined.


Lemma ISO8601_width_witness :
  String.length (ISO8601 utc) = 20%nat /\ String.length (ISO8601 ist) = 24%nat.
Proof.
  split.
  - apply (ISO8601_width utc); vm_compute; split; congruence.
  - apply (ISO8601_width ist); vm_compute; split; congruence.
Defined.

Lemma ISO8601_sub_hour_offset_witness :
  ISO8601 lmt = "2023-01-05T03:04:0500000".
Proof.
  apply (ISO8601_sub_hour_offset lmt); [discriminate|].
  vm_compute; split; congruence.
Defined.
